(** * NeMo LLM pretraining recipes: gpt3_175b and nemotron4_22b

    A shallow embedding of
      nemo/collections/llm/recipes/gpt3_175b.py
      nemo/collections/llm/recipes/nemotron4_22b.py
    and the properties of the recipe builders.

    The recipes build a graph of [run.Config] / [run.Partial] objects and
    Python lists.  The performance variants mutate that graph in place
    ([list.append], attribute assignment), so the embedding keeps an explicit
    object store: every [run.Config(...)] call and every list display
    allocates a new object, attribute reads return the stored reference
    (aliasing, not a copy), and the recipes are computations in a state and
    error monad over the store. *)

From Stdlib Require Import ZArith QArith.
#[local] Set Warnings "-register-all".

From stdpp Require Import base list strings.

Close Scope Q_scope.
Open Scope string_scope.
Open Scope list_scope.

(** ** Python values and the object store *)

Abbreviation loc := nat.

(** A Python value as the recipes see it.  Numbers, strings, booleans and
    [None] are immutable and carried by value.  [VName] is a module-level
    object reached through an import (a class, a function such as
    [pretrain], a dtype such as [torch.bfloat16], a preset such as
    [userbuffers_fp8_h100_h12288_tp4_mbs1_seqlen2048]): one object per name
    for the whole process.  [VRef] is a reference to an object of the store.
    A float is kept as the rational its literal denotes; the recipes do no
    arithmetic on it. *)
Inductive value : Type :=
| VNone
| VBool (b : bool)
| VInt (z : Z)
| VFloat (q : Q)
| VStr (s : string)
| VName (n : string)
| VRef (l : loc).

(** [run.Config] and [run.Partial] are the two buildable classes of
    nemo_run. *)
Inductive bkind : Type := KConfig | KPartial.

(** A stored object: a buildable with the callable it targets and its
    keyword arguments (in the order written), a Python list, or an instance
    of some other class with its attributes. *)
Inductive obj : Type :=
| OBuildable (k : bkind) (target : value) (args : list (string * value))
| OList (items : list value)
| OInstance (cls : string) (fields : list (string * value)).

Abbreviation store := (list obj).

Inductive exn : Type :=
| AttributeError (attr : string)
| DanglingReference.

Inductive res (A : Type) : Type :=
| OK (a : A)
| Raise (e : exn).
Arguments OK {A} a.
Arguments Raise {A} e.

(** Computations over the store that may raise. *)
Definition M (A : Type) : Type := store -> res (A * store).

Definition ret {A} (a : A) : M A := fun s => OK (a, s).

Definition bind {A B} (m : M A) (k : A -> M B) : M B :=
  fun s => match m s with
           | OK (a, s') => k a s'
           | Raise e => Raise e
           end.

Notation "x <- m ;; k" := (bind m (fun x => k))
  (at level 100, m at next level, right associativity).
Notation "m ;;; k" := (bind m (fun _ => k))
  (at level 100, right associativity).

(** Keyword arguments: lookup and assignment by name. *)
Fixpoint assoc (k : string) (kv : list (string * value)) : option value :=
  match kv with
  | [] => None
  | (k', v) :: r => if String.eqb k k' then Some v else assoc k r
  end.

Fixpoint assoc_set (k : string) (v : value) (kv : list (string * value))
  : list (string * value) :=
  match kv with
  | [] => [(k, v)]
  | (k', v') :: r =>
      if String.eqb k k' then (k, v) :: r else (k', v') :: assoc_set k v r
  end.

(** Allocation: the new object gets the next free location. *)
Definition alloc (o : obj) : M value :=
  fun s => OK (VRef (length s), s ++ [o]).

(** [run.Config(target, **kwargs)] and [run.Partial(fn, **kwargs)]. *)
Definition run_Config (target : string) (kwargs : list (string * value)) : M value :=
  alloc (OBuildable KConfig (VName target) kwargs).

Definition run_Partial (fn : value) (kwargs : list (string * value)) : M value :=
  alloc (OBuildable KPartial fn kwargs).

(** A list display [[x1, ..., xn]]. *)
Definition new_list (items : list value) : M value := alloc (OList items).

(** Attribute read [v.name], without the store effects: a buildable answers
    with the argument stored under that name, an instance with its field.
    An unset name, and any attribute of [None], a number, a string or a
    list, is an AttributeError ([append] is modelled by [list_append]). *)
Definition attr (s : store) (v : value) (name : string) : res value :=
  match v with
  | VRef l =>
      match s !! l with
      | Some (OBuildable _ _ args) =>
          match assoc name args with
          | Some x => OK x
          | None => Raise (AttributeError name)
          end
      | Some (OInstance _ fields) =>
          match assoc name fields with
          | Some x => OK x
          | None => Raise (AttributeError name)
          end
      | Some (OList _) => Raise (AttributeError name)
      | None => Raise DanglingReference
      end
  | _ => Raise (AttributeError name)
  end.

Definition getattr (v : value) (name : string) : M value :=
  fun s => match attr s v name with
           | OK x => OK (x, s)
           | Raise e => Raise e
           end.

(** Attribute assignment [v.name = x]: in place, on the object [v] refers
    to. *)
Definition setattr (v : value) (name : string) (x : value) : M unit :=
  fun s =>
    match v with
    | VRef l =>
        match s !! l with
        | Some (OBuildable k t args) =>
            OK (tt, <[l := OBuildable k t (assoc_set name x args)]> s)
        | Some (OInstance c fields) =>
            OK (tt, <[l := OInstance c (assoc_set name x fields)]> s)
        | Some (OList _) => Raise (AttributeError name)
        | None => Raise DanglingReference
        end
    | _ => Raise (AttributeError name)
    end.

(** [v.append(x)]: in place when [v] is a list; [None], a buildable or any
    other value has no [append]. *)
Definition list_append (v : value) (x : value) : M unit :=
  fun s =>
    match v with
    | VRef l =>
        match s !! l with
        | Some (OList items) => OK (tt, <[l := OList (items ++ [x])]> s)
        | Some _ => Raise (AttributeError "append")
        | None => Raise DanglingReference
        end
    | _ => Raise (AttributeError "append")
    end.

(** The runtime class of a value: [type(v)].  An object built by
    [run.Config(C, ...)] is an instance of [run.Config], not of [C]; [C] is
    only the callable the buildable will call when it is instantiated.  The
    module-level objects the recipes import are classes, functions, a dtype
    and an overlap preset; their own classes are not told apart. *)
Definition class_of (s : store) (v : value) : option string :=
  match v with
  | VNone => Some "NoneType"
  | VBool _ => Some "bool"
  | VInt _ => Some "int"
  | VFloat _ => Some "float"
  | VStr _ => Some "str"
  | VName _ => Some "object"
  | VRef l =>
      match s !! l with
      | Some (OBuildable KConfig _ _) => Some "run.Config"
      | Some (OBuildable KPartial _ _) => Some "run.Partial"
      | Some (OList _) => Some "list"
      | Some (OInstance c _) => Some c
      | None => None
      end
  end.

(** [isinstance(v, cls)] for the two classes the recipes test against,
    [MegatronMixedPrecision] and [DistributedDataParallelConfig].  Neither
    is a base class of a builtin type nor of nemo_run's buildables, so the
    test holds exactly for instances of the class itself (the recipes
    declare no subclass of either). *)
Definition isinstance (v : value) (cls : string) : M bool :=
  fun s => match class_of s v with
           | Some c => OK (String.eqb c cls, s)
           | None => Raise DanglingReference
           end.

(** Conversions of typed arguments to values. *)
Definition of_opt_str (o : option string) : value :=
  match o with Some x => VStr x | None => VNone end.
Definition of_opt_int (o : option Z) : value :=
  match o with Some x => VInt x | None => VNone end.
Definition of_opt_name (o : option string) : value :=
  match o with Some x => VName x | None => VNone end.

(** ** Helpers of the repository that the two recipe files import

    Their sources are not part of the two files; each is modelled from what
    the specification says the helper produces. *)

Module precision.

(** Modelled from the spec: the helpers [bf16_mixed], [fp16_mixed] and
    [bf16_with_fp8_mixed] of recipes/precision/mixed_precision.py are
    missing.  The spec describes their result as the numeric-precision
    plugin, a configuration node that carries the precision mode and the
    gradient-reduction-precision flag which the performance variant later
    tries to turn off. *)
Definition mixed_precision_plugin (mode : string) : M value :=
  run_Config "MegatronMixedPrecision"
    [("precision", VStr mode); ("grad_reduce_in_fp32", VBool true)].

Definition bf16_mixed : M value := mixed_precision_plugin "bf16-mixed".
Definition fp16_mixed : M value := mixed_precision_plugin "16-mixed".
Definition bf16_with_fp8_mixed : M value := mixed_precision_plugin "bf16-with-fp8-mixed".

End precision.

Module log_default.

(** Modelled from the spec: [tensorboard_logger] of recipes/log/default.py
    is missing; the spec calls its result the metrics-logger
    sub-configuration of the logging node. *)
Definition tensorboard_logger (name : value) : M value :=
  run_Config "TensorBoardLogger" [("name", name)].

(** Modelled from the spec: [default_log] of recipes/log/default.py is
    missing; the spec gives the logging configuration node a directory, a
    run name and the metrics-logger sub-configuration. *)
Definition default_log (dir name tensorboard_logger : value) : M value :=
  run_Config "nl.NeMoLogger"
    [("log_dir", dir); ("name", name); ("tensorboard", tensorboard_logger)].

(** Modelled from the spec: [default_resume] of recipes/log/default.py is
    missing; the spec only says it returns the resume-policy configuration
    node. *)
Definition default_resume : M value := run_Config "nl.AutoResume" [].

End log_default.

Module optim_adam.

(** Modelled from the spec: [distributed_fused_adam_with_cosine_annealing]
    of recipes/optim/adam.py is missing; the spec gives the optimizer
    configuration node the learning-rate schedule parameters (warmup and
    constant steps, minimum and maximum learning rate, gradient-clip value,
    numeric precision).  The node records the keyword arguments of the call;
    what the helper fills in for an argument left out is not in the sources
    and is not recorded. *)
Definition distributed_fused_adam_with_cosine_annealing
    (kwargs : list (string * value)) : M value :=
  run_Config "MegatronOptimizerModule" kwargs.

End optim_adam.

Module nemotron.

(** Modelled from the spec: [nemotron_model] of recipes/nemotron.py is
    missing; the spec (4.1) has a model recipe return a configuration node
    wrapping the architecture configuration of the named model size. *)
Definition nemotron_model (version : string) : M value :=
  cfg <- run_Config ("NemotronConfig:" +:+ version) [] ;;
  run_Config "NemotronModel" [("config", cfg)].

(** Modelled from the spec: [nemotron_trainer] of recipes/nemotron.py is
    missing.  Spec 4.2: it produces (a) a distributed-strategy configuration
    node with the parallelism degrees and the data-parallel settings
    (gradient-bucket view, asynchronous and parallel checkpoint I/O, a
    nested data-parallel configuration node with NaN checking, the
    gradient-reduction precision and the overlap flags) and (b) the trainer
    configuration node with the strategy, the device and node counts, the
    validation and logging cadence and the numeric-precision plugin
    selected by [precision] (documented values: fp32, 16-mixed, bf16-mixed;
    fp32 needs no mixed-precision plugin).  The layout follows the
    [trainer] function of gpt3_175b.py. *)
Definition nemotron_trainer
    (tensor_parallelism pipeline_parallelism : Z)
    (pipeline_parallelism_type : option string)
    (virtual_pipeline_parallelism : option Z)
    (context_parallelism : Z) (sequence_parallelism : bool)
    (num_nodes num_gpus_per_node max_steps : Z) (precision : string)
    (accumulate_grad_batches limit_test_batches limit_val_batches
       log_every_n_steps val_check_interval : Z)
    (callbacks : value) : M value :=
  ddp <- run_Config "DistributedDataParallelConfig"
           [("check_for_nan_in_grad", VBool true);
            ("grad_reduce_in_fp32", VBool true);
            ("overlap_grad_reduce", VBool true);
            ("overlap_param_gather", VBool true)] ;;
  strategy <- run_Config "nl.MegatronStrategy"
           [("tensor_model_parallel_size", VInt tensor_parallelism);
            ("pipeline_model_parallel_size", VInt pipeline_parallelism);
            ("pipeline_dtype", of_opt_name pipeline_parallelism_type);
            ("virtual_pipeline_model_parallel_size",
               of_opt_int virtual_pipeline_parallelism);
            ("context_parallel_size", VInt context_parallelism);
            ("sequence_parallel", VBool sequence_parallelism);
            ("gradient_as_bucket_view", VBool true);
            ("ckpt_async_save", VBool true);
            ("ckpt_parallel_load", VBool true);
            ("ddp", ddp)] ;;
  precision_plugin <-
    (if String.eqb precision "16-mixed" then precision.fp16_mixed
     else if String.eqb precision "bf16-mixed" then precision.bf16_mixed
     else ret VNone) ;;
  run_Config "nl.Trainer"
    [("accelerator", VStr "gpu");
     ("accumulate_grad_batches", VInt accumulate_grad_batches);
     ("callbacks", callbacks);
     ("devices", VInt num_gpus_per_node);
     ("limit_test_batches", VInt limit_test_batches);
     ("limit_val_batches", VInt limit_val_batches);
     ("log_every_n_steps", VInt log_every_n_steps);
     ("max_steps", VInt max_steps);
     ("num_nodes", VInt num_nodes);
     ("plugins", precision_plugin);
     ("strategy", strategy);
     ("use_distributed_sampler", VBool false);
     ("val_check_interval", VInt val_check_interval)].

End nemotron.

(** ** gpt3_175b.py *)

Module gpt3_175b.

Definition NAME : string := "gpt3_175b".

(** [model()] *)
Definition model : M value :=
  cfg <- run_Config "GPTConfig175B" [] ;;
  run_Config "GPTModel" [("config", cfg)].

(** Default values of the parameters of [trainer]. *)
Module default.
Definition tensor_parallelism : Z := 4.
Definition pipeline_parallelism : Z := 8.
Definition pipeline_parallelism_type : option string := Some "torch.bfloat16".
Definition virtual_pipeline_parallelism : option Z := Some 6%Z.
Definition context_parallelism : Z := 1.
Definition sequence_parallelism : bool := true.
Definition num_nodes : Z := 64.
Definition num_gpus_per_node : Z := 8.
Definition max_steps : Z := 1168251.
Definition callbacks : value := VNone.
End default.

(** [trainer(...)].  [callbacks] is [None] or a reference to the caller's
    list; the value passed is stored in the trainer node as it is. *)
Definition trainer
    (tensor_parallelism pipeline_parallelism : Z)
    (pipeline_parallelism_type : option string)
    (virtual_pipeline_parallelism : option Z)
    (context_parallelism : Z) (sequence_parallelism : bool)
    (num_nodes num_gpus_per_node max_steps : Z)
    (callbacks : value) : M value :=
  ddp <- run_Config "DistributedDataParallelConfig"
           [("check_for_nan_in_grad", VBool true);
            ("grad_reduce_in_fp32", VBool true);
            ("overlap_grad_reduce", VBool true);
            ("overlap_param_gather", VBool true);
            ("average_in_collective", VBool true)] ;;
  strategy <- run_Config "nl.MegatronStrategy"
           [("tensor_model_parallel_size", VInt tensor_parallelism);
            ("pipeline_model_parallel_size", VInt pipeline_parallelism);
            ("pipeline_dtype", of_opt_name pipeline_parallelism_type);
            ("virtual_pipeline_model_parallel_size",
               of_opt_int virtual_pipeline_parallelism);
            ("context_parallel_size", VInt context_parallelism);
            ("sequence_parallel", VBool sequence_parallelism);
            ("gradient_as_bucket_view", VBool true);
            ("ckpt_async_save", VBool true);
            ("ckpt_parallel_load", VBool true);
            ("ddp", ddp)] ;;
  plugins <- precision.bf16_with_fp8_mixed ;;
  run_Config "nl.Trainer"
    [("accelerator", VStr "gpu");
     ("accumulate_grad_batches", VInt 1);
     ("callbacks", callbacks);
     ("devices", VInt num_gpus_per_node);
     ("limit_test_batches", VInt 50);
     ("limit_val_batches", VInt 32);
     ("log_every_n_steps", VInt 10);
     ("max_steps", VInt max_steps);
     ("num_nodes", VInt num_nodes);
     ("plugins", plugins);
     ("strategy", strategy);
     ("use_distributed_sampler", VBool false);
     ("val_check_interval", VInt 2000)].

(** [pretrain_recipe(dir, name, num_nodes, num_gpus_per_node, fn)].  The
    call of [trainer] passes three keywords and leaves the other parameters
    at their defaults. *)
Definition pretrain_recipe
    (dir : option string) (name : string)
    (num_nodes num_gpus_per_node : Z) (fn : string) : M value :=
  model_ <- model ;;
  timing <- run_Config "TimingCallback" [] ;;
  callbacks <- new_list [timing] ;;
  trainer_ <- trainer default.tensor_parallelism default.pipeline_parallelism
                default.pipeline_parallelism_type
                default.virtual_pipeline_parallelism
                default.context_parallelism default.sequence_parallelism
                num_nodes num_gpus_per_node default.max_steps callbacks ;;
  data <- run_Config "MockDataModule"
            [("seq_length", VInt 2048);
             ("global_batch_size", VInt 2048);
             ("micro_batch_size", VInt 2)] ;;
  tb <- log_default.tensorboard_logger (VStr name) ;;
  log <- log_default.default_log (of_opt_str dir) (VStr name) tb ;;
  optim <- optim_adam.distributed_fused_adam_with_cosine_annealing
             [("max_lr", VFloat (Qmake 9 100000))] ;;
  resume <- log_default.default_resume ;;
  run_Partial (VName fn)
    [("model", model_); ("trainer", trainer_); ("data", data);
     ("log", log); ("optim", optim); ("resume", resume)].

(** [pretrain_recipe_performance(dir, name, num_nodes, num_gpus_per_node, fn)] *)
Definition pretrain_recipe_performance
    (dir : option string) (name : string)
    (num_nodes num_gpus_per_node : Z) (fn : string) : M value :=
  recipe <- pretrain_recipe dir name num_nodes num_gpus_per_node fn ;;
  trainer_ <- getattr recipe "trainer" ;;
  callbacks <- getattr trainer_ "callbacks" ;;
  overlap <- run_Config "MegatronCommOverlapCallback"
               [("tp_comm_overlap", VBool true);
                ("tp_comm_overlap_cfg",
                   VName "userbuffers_fp8_h100_h12288_tp4_mbs1_seqlen2048");
                ("defer_embedding_wgrad_compute", VBool true);
                ("wgrad_deferral_limit", VInt 50);
                ("overlap_param_gather_with_optimizer_step", VBool true);
                ("align_param_gather", VBool true)] ;;
  list_append callbacks overlap ;;;
  ret recipe.

End gpt3_175b.

(** ** nemotron4_22b.py *)

Module nemotron4_22b.

Definition NAME : string := "nemotron4_22b".

(** [model()] *)
Definition model : M value := nemotron.nemotron_model NAME.

(** The parameters of [pretrain_recipe].  The data and optimizer parameters
    carry no annotation in the source; the docstring gives them as integers
    and floats. *)
Record pretrain_args : Type := {
  dir : option string;
  name : string;
  tensor_parallelism : Z;
  pipeline_parallelism : Z;
  pipeline_parallelism_type : option string;
  virtual_pipeline_parallelism : option Z;
  context_parallelism : Z;
  sequence_parallelism : bool;
  num_nodes : Z;
  num_gpus_per_node : Z;
  max_steps : Z;
  precision : string;
  accumulate_grad_batches : Z;
  gradient_clip_val : Q;
  limit_test_batches : Z;
  limit_val_batches : Z;
  log_every_n_steps : Z;
  val_check_interval : Z;
  global_batch_size : Z;
  micro_batch_size : Z;
  seq_length : Z;
  warmup_steps : Z;
  constant_steps : Z;
  min_lr : Q;
  max_lr : Q;
  fn : string
}.

(** The default values of those parameters. *)
Definition default : pretrain_args := {|
  dir := None;
  name := "default";
  tensor_parallelism := 2;
  pipeline_parallelism := 4;
  pipeline_parallelism_type := None;
  virtual_pipeline_parallelism := Some 10%Z;
  context_parallelism := 1;
  sequence_parallelism := false;
  num_nodes := 1;
  num_gpus_per_node := 8;
  max_steps := 300000;
  precision := "bf16-mixed";
  accumulate_grad_batches := 1;
  gradient_clip_val := Qmake 1 1;
  limit_test_batches := 32;
  limit_val_batches := 32;
  log_every_n_steps := 10;
  val_check_interval := 2000;
  global_batch_size := 32;
  micro_batch_size := 1;
  seq_length := 4096;
  warmup_steps := 500;
  constant_steps := 0;
  min_lr := Qmake 1 100000;
  max_lr := Qmake 1 10000;
  fn := "pretrain"
|}.

(** [pretrain_recipe(...)] *)
Definition pretrain_recipe (a : pretrain_args) : M value :=
  model_ <- model ;;
  timing <- run_Config "TimingCallback" [] ;;
  callbacks <- new_list [timing] ;;
  trainer_ <- nemotron.nemotron_trainer
                (tensor_parallelism a) (pipeline_parallelism a)
                (pipeline_parallelism_type a) (virtual_pipeline_parallelism a)
                (context_parallelism a) (sequence_parallelism a)
                (num_nodes a) (num_gpus_per_node a) (max_steps a) (precision a)
                (accumulate_grad_batches a) (limit_test_batches a)
                (limit_val_batches a) (log_every_n_steps a)
                (val_check_interval a) callbacks ;;
  data <- run_Config "MockDataModule"
            [("seq_length", VInt (seq_length a));
             ("global_batch_size", VInt (global_batch_size a));
             ("micro_batch_size", VInt (micro_batch_size a))] ;;
  tb <- log_default.tensorboard_logger (VStr (name a)) ;;
  log <- log_default.default_log (of_opt_str (dir a)) (VStr (name a)) tb ;;
  optim <- optim_adam.distributed_fused_adam_with_cosine_annealing
             [("precision", VStr (precision a));
              ("warmup_steps", VInt (warmup_steps a));
              ("constant_steps", VInt (constant_steps a));
              ("min_lr", VFloat (min_lr a));
              ("max_lr", VFloat (max_lr a));
              ("clip_grad", VFloat (gradient_clip_val a))] ;;
  resume <- log_default.default_resume ;;
  run_Partial (VName (fn a))
    [("model", model_); ("trainer", trainer_); ("data", data);
     ("log", log); ("optim", optim); ("resume", resume)].

(** The arguments [pretrain_recipe_performance] passes on: its five
    parameters by keyword, every other parameter of [pretrain_recipe] at its
    default. *)
Definition base_args (dir : option string) (name : string)
    (num_nodes num_gpus_per_node : Z) (fn : string) : pretrain_args :=
  {| dir := dir; name := name;
     tensor_parallelism := tensor_parallelism default;
     pipeline_parallelism := pipeline_parallelism default;
     pipeline_parallelism_type := pipeline_parallelism_type default;
     virtual_pipeline_parallelism := virtual_pipeline_parallelism default;
     context_parallelism := context_parallelism default;
     sequence_parallelism := sequence_parallelism default;
     num_nodes := num_nodes; num_gpus_per_node := num_gpus_per_node;
     max_steps := max_steps default;
     precision := precision default;
     accumulate_grad_batches := accumulate_grad_batches default;
     gradient_clip_val := gradient_clip_val default;
     limit_test_batches := limit_test_batches default;
     limit_val_batches := limit_val_batches default;
     log_every_n_steps := log_every_n_steps default;
     val_check_interval := val_check_interval default;
     global_batch_size := global_batch_size default;
     micro_batch_size := micro_batch_size default;
     seq_length := seq_length default;
     warmup_steps := warmup_steps default;
     constant_steps := constant_steps default;
     min_lr := min_lr default;
     max_lr := max_lr default;
     fn := fn |}.

(** The first guarded assignment (lines 213-214):
    [if isinstance(recipe.trainer.plugins, MegatronMixedPrecision):
         recipe.trainer.plugins.grad_reduce_in_fp32 = False] *)
Definition override_plugins (recipe : value) : M unit :=
  trainer_ <- getattr recipe "trainer" ;;
  plugins <- getattr trainer_ "plugins" ;;
  is_mp <- isinstance plugins "MegatronMixedPrecision" ;;
  if is_mp then
    trainer_ <- getattr recipe "trainer" ;;
    plugins <- getattr trainer_ "plugins" ;;
    setattr plugins "grad_reduce_in_fp32" (VBool false)
  else ret tt.

(** The second guarded assignment (lines 215-216):
    [if isinstance(recipe.trainer.strategy.ddp, DistributedDataParallelConfig):
         recipe.trainer.strategy.ddp.grad_reduce_in_fp32 = False] *)
Definition override_ddp (recipe : value) : M unit :=
  trainer_ <- getattr recipe "trainer" ;;
  strategy <- getattr trainer_ "strategy" ;;
  ddp <- getattr strategy "ddp" ;;
  is_ddp <- isinstance ddp "DistributedDataParallelConfig" ;;
  if is_ddp then
    trainer_ <- getattr recipe "trainer" ;;
    strategy <- getattr trainer_ "strategy" ;;
    ddp <- getattr strategy "ddp" ;;
    setattr ddp "grad_reduce_in_fp32" (VBool false)
  else ret tt.

(** The append of the overlap callback (lines 218-225). *)
Definition append_overlap (recipe : value) : M unit :=
  trainer_ <- getattr recipe "trainer" ;;
  callbacks <- getattr trainer_ "callbacks" ;;
  overlap <- run_Config "MegatronCommOverlapCallback"
               [("tp_comm_overlap", VBool true);
                ("defer_embedding_wgrad_compute", VBool true);
                ("wgrad_deferral_limit", VInt 22)] ;;
  list_append callbacks overlap.

(** [pretrain_recipe_performance(dir, name, num_nodes, num_gpus_per_node, fn)]:
    the base recipe, then the three statements above in order. *)
Definition pretrain_recipe_performance
    (dir : option string) (name : string)
    (num_nodes num_gpus_per_node : Z) (fn : string) : M value :=
  recipe <- pretrain_recipe (base_args dir name num_nodes num_gpus_per_node fn) ;;
  override_plugins recipe ;;;
  override_ddp recipe ;;;
  append_overlap recipe ;;;
  ret recipe.

End nemotron4_22b.

(** ** Observing a configuration graph *)

(** [path s v [a1; ...; an]] is [v.a1. ... .an] read in store [s]. *)
Fixpoint path (s : store) (v : value) (names : list string) : res value :=
  match names with
  | [] => OK v
  | n :: rest =>
      match attr s v n with
      | OK x => path s x rest
      | Raise e => Raise e
      end
  end.

(** The items of the list that the value read by [r] refers to. *)
Definition list_items (s : store) (r : res value) : option (list value) :=
  match r with
  | OK (VRef l) =>
      match s !! l with
      | Some (OList items) => Some items
      | _ => None
      end
  | _ => None
  end.

(** The structure below a value, locations forgotten: what [==] on two
    configuration trees compares. *)
Inductive tree : Type :=
| TLeaf (v : value)
| TBuildable (k : bkind) (target : value) (args : list (string * tree))
| TList (items : list tree)
| TInstance (cls : string) (fields : list (string * tree)).

Fixpoint traverse {A B} (f : A -> option B) (l : list A) : option (list B) :=
  match l with
  | [] => Some []
  | x :: r =>
      match f x, traverse f r with
      | Some y, Some ys => Some (y :: ys)
      | _, _ => None
      end
  end.

Definition on_snd {A B K} (f : A -> option B) (kv : K * A) : option (K * B) :=
  match f (snd kv) with
  | Some b => Some (fst kv, b)
  | None => None
  end.

(** [reify n s v]: the tree below [v], following at most [n] references in
    depth; [None] when the depth does not suffice or a reference dangles. *)
Fixpoint reify (n : nat) (s : store) (v : value) : option tree :=
  match v with
  | VRef l =>
      match n with
      | O => None
      | S n' =>
          match s !! l with
          | Some (OBuildable k t args) =>
              option_map (TBuildable k t) (traverse (on_snd (reify n' s)) args)
          | Some (OList items) =>
              option_map TList (traverse (reify n' s) items)
          | Some (OInstance c fields) =>
              option_map (TInstance c) (traverse (on_snd (reify n' s)) fields)
          | None => None
          end
      end
  | _ => Some (TLeaf v)
  end.

(** The values an object holds. *)
Definition children (o : obj) : list value :=
  match o with
  | OBuildable _ _ args => map snd args
  | OList items => items
  | OInstance _ fields => map snd fields
  end.

(** [reachable s v l]: the object at [l] is [v] itself or is held, directly
    or not, by the object [v] refers to. *)
Inductive reachable (s : store) : value -> loc -> Prop :=
| reach_here l : reachable s (VRef l) l
| reach_child l o v l' :
    s !! l = Some o -> In v (children o) -> reachable s v l' ->
    reachable s (VRef l) l'.

(** Moving a graph to another base location. *)
Definition reloc_value (k : nat) (v : value) : value :=
  match v with
  | VRef l => VRef (k + l)
  | _ => v
  end.

Definition reloc_obj (k : nat) (o : obj) : obj :=
  match o with
  | OBuildable b t args =>
      OBuildable b t (map (fun kv => (fst kv, reloc_value k (snd kv))) args)
  | OList items => OList (map (reloc_value k) items)
  | OInstance c fields =>
      OInstance c (map (fun kv => (fst kv, reloc_value k (snd kv))) fields)
  end.

(** The result of a computation started in the empty store, replayed on top
    of the store [s]. *)
Definition on_top (s : store) (r : res (value * store)) : res (value * store) :=
  match r with
  | OK (v, seg) =>
      OK (reloc_value (length s) v, s ++ fmap (reloc_obj (length s)) seg)
  | Raise e => Raise e
  end.

(** Reading and replacing a subtree by a path of argument names. *)
Fixpoint tassoc (k : string) (kv : list (string * tree)) : option tree :=
  match kv with
  | [] => None
  | (k', t) :: r => if String.eqb k k' then Some t else tassoc k r
  end.

Fixpoint tree_get (t : tree) (p : list string) : option tree :=
  match p with
  | [] => Some t
  | n :: rest =>
      match t with
      | TBuildable _ _ args | TInstance _ args =>
          match tassoc n args with
          | Some x => tree_get x rest
          | None => None
          end
      | _ => None
      end
  end.

Fixpoint tassoc_update (k : string) (f : tree -> tree) (kv : list (string * tree))
  : list (string * tree) :=
  match kv with
  | [] => []
  | (k', t) :: r =>
      if String.eqb k k' then (k', f t) :: r else (k', t) :: tassoc_update k f r
  end.

Fixpoint tree_set (p : list string) (x : tree) (t : tree) : tree :=
  match p with
  | [] => x
  | n :: rest =>
      match t with
      | TBuildable k tg args => TBuildable k tg (tassoc_update n (tree_set rest x) args)
      | TInstance c args => TInstance c (tassoc_update n (tree_set rest x) args)
      | _ => t
      end
  end.

(** A segment of the store is closed when its objects hold references into
    the segment only. *)
Definition closed_value (n : nat) (v : value) : bool :=
  match v with
  | VRef l => Nat.ltb l n
  | _ => true
  end.

Definition closed_seg (seg : store) : bool :=
  forallb (fun o => forallb (closed_value (length seg)) (children o)) seg.

(** ** Properties of the builders *)

(** A builder is relocatable when running it in any store gives what it
    gives in the empty store, moved behind the objects already there.  In
    particular it leaves those objects as they are. *)
Definition relocatable (m : M value) : Prop :=
  forall s : store, m s = on_top s (m []).

(** [sim s f m1 m2]: the computation [m1], run behind the objects of [s],
    does what [m2] does without them, with results related by [f]. *)
Definition sim (s : store) {A} (f : A -> A) (m1 m2 : M A) : Prop :=
  forall seg : store,
    m1 (s ++ fmap (reloc_obj (length s)) seg)
    = match m2 seg with
      | OK (a, seg') => OK (f a, s ++ fmap (reloc_obj (length s)) seg')
      | Raise e => Raise e
      end.

(** Two values of a store have the same structure. *)
Definition same_tree (s : store) (v1 v2 : value) : Prop :=
  exists n t, reify n s v1 = Some t /\ reify n s v2 = Some t.

(** Every object below [v] was allocated after the store had [n] objects. *)
Definition allocated_since (n : nat) (s : store) (v : value) : Prop :=
  forall l, reachable s v l -> n <= l.

(** No object is below both values. *)
Definition disjoint_graphs (s : store) (v1 v2 : value) : Prop :=
  forall l, reachable s v1 l -> reachable s v2 l -> False.

(** Calling [m] twice in a row from [s]: both calls return, the two results
    are two different objects with the same structure, each result is made
    of objects allocated by its own call, and they have no object in
    common. *)
Definition fresh_twice (m : M value) (s : store) : Prop :=
  exists l1 s1 l2 s2,
    m s = OK (VRef l1, s1) /\ m s1 = OK (VRef l2, s2) /\
    l1 <> l2 /\
    same_tree s2 (VRef l1) (VRef l2) /\
    allocated_since (length s) s2 (VRef l1) /\
    allocated_since (length s1) s2 (VRef l2) /\
    disjoint_graphs s2 (VRef l1) (VRef l2).

(** [m], called in store [s], returns a value whose tree is [t] (at any
    depth from 4 on; no recipe tree is deeper). *)
Definition returns_tree (m : M value) (s : store) (t : tree) : Prop :=
  exists r s', m s = OK (r, s') /\ forall n, reify (4 + n) s' r = Some t.

(** The branch [b] of the recipe [r] is there and is a configuration node. *)
Definition branch_present (s : store) (r : value) (b : string) : Prop :=
  exists l, path s r [b] = OK (VRef l) /\ class_of s (VRef l) = Some "run.Config".

Definition six_branches : list string :=
  ["model"; "trainer"; "data"; "log"; "optim"; "resume"].

(** The argument tuple of gpt3_175b [pretrain_recipe], by keyword. *)
Definition gpt3_pretrain_kwargs (dir : option string) (name : string)
    (num_nodes num_gpus_per_node : Z) (fn : string) : list (string * value) :=
  [("dir", of_opt_str dir); ("name", VStr name); ("num_nodes", VInt num_nodes);
   ("num_gpus_per_node", VInt num_gpus_per_node); ("fn", VName fn)].

(** The data fields of the returned recipe are arguments of the call: each
    of the three fields holds a value that was passed in. *)
Definition data_fields_are_arguments (kwargs : list (string * value))
    (m : M value) (s : store) : Prop :=
  exists r s', m s = OK (r, s') /\
    Forall (fun f => exists v, path s' r ["data"; f] = OK v /\ In v (map snd kwargs))
      ["global_batch_size"; "micro_batch_size"; "seq_length"].

(** The argument tuple of nemotron4_22b [pretrain_recipe], by keyword. *)
Definition nemotron_pretrain_kwargs (a : nemotron4_22b.pretrain_args)
  : list (string * value) :=
  [("dir", of_opt_str (nemotron4_22b.dir a));
   ("name", VStr (nemotron4_22b.name a));
   ("tensor_parallelism", VInt (nemotron4_22b.tensor_parallelism a));
   ("pipeline_parallelism", VInt (nemotron4_22b.pipeline_parallelism a));
   ("pipeline_parallelism_type",
      of_opt_name (nemotron4_22b.pipeline_parallelism_type a));
   ("virtual_pipeline_parallelism",
      of_opt_int (nemotron4_22b.virtual_pipeline_parallelism a));
   ("context_parallelism", VInt (nemotron4_22b.context_parallelism a));
   ("sequence_parallelism", VBool (nemotron4_22b.sequence_parallelism a));
   ("num_nodes", VInt (nemotron4_22b.num_nodes a));
   ("num_gpus_per_node", VInt (nemotron4_22b.num_gpus_per_node a));
   ("max_steps", VInt (nemotron4_22b.max_steps a));
   ("precision", VStr (nemotron4_22b.precision a));
   ("accumulate_grad_batches", VInt (nemotron4_22b.accumulate_grad_batches a));
   ("gradient_clip_val", VFloat (nemotron4_22b.gradient_clip_val a));
   ("limit_test_batches", VInt (nemotron4_22b.limit_test_batches a));
   ("limit_val_batches", VInt (nemotron4_22b.limit_val_batches a));
   ("log_every_n_steps", VInt (nemotron4_22b.log_every_n_steps a));
   ("val_check_interval", VInt (nemotron4_22b.val_check_interval a));
   ("global_batch_size", VInt (nemotron4_22b.global_batch_size a));
   ("micro_batch_size", VInt (nemotron4_22b.micro_batch_size a));
   ("seq_length", VInt (nemotron4_22b.seq_length a));
   ("warmup_steps", VInt (nemotron4_22b.warmup_steps a));
   ("constant_steps", VInt (nemotron4_22b.constant_steps a));
   ("min_lr", VFloat (nemotron4_22b.min_lr a));
   ("max_lr", VFloat (nemotron4_22b.max_lr a));
   ("fn", VName (nemotron4_22b.fn a))].

Definition callbacks_path : list string := ["trainer"; "callbacks"].

(** The overlap callback as each variant writes it. *)
Definition gpt3_overlap_callback : tree :=
  TBuildable KConfig (VName "MegatronCommOverlapCallback")
    [("tp_comm_overlap", TLeaf (VBool true));
     ("tp_comm_overlap_cfg",
        TLeaf (VName "userbuffers_fp8_h100_h12288_tp4_mbs1_seqlen2048"));
     ("defer_embedding_wgrad_compute", TLeaf (VBool true));
     ("wgrad_deferral_limit", TLeaf (VInt 50));
     ("overlap_param_gather_with_optimizer_step", TLeaf (VBool true));
     ("align_param_gather", TLeaf (VBool true))].

Definition nemotron_overlap_callback : tree :=
  TBuildable KConfig (VName "MegatronCommOverlapCallback")
    [("tp_comm_overlap", TLeaf (VBool true));
     ("defer_embedding_wgrad_compute", TLeaf (VBool true));
     ("wgrad_deferral_limit", TLeaf (VInt 22))].

(** Called in the same store, the variant's callback list is the base
    recipe's list with one entry added at the end, and that entry is [cb];
    the entries before it are the ones of the base recipe. *)
Definition appends_callback (base variant : M value) (s : store) (cb : tree)
  : Prop :=
  exists rb sb rv sv items x,
    base s = OK (rb, sb) /\ variant s = OK (rv, sv) /\
    list_items sb (path sb rb callbacks_path) = Some items /\
    list_items sv (path sv rv callbacks_path) = Some (items ++ [x]) /\
    length (items ++ [x]) = S (length items) /\
    (forall n, reify (1 + n) sv x = Some cb) /\
    Forall (fun v => exists t, reify 1 sb v = Some t /\ reify 1 sv v = Some t)
      items.

Definition plugins_flag : list string :=
  ["trainer"; "plugins"; "grad_reduce_in_fp32"].

Definition ddp_flag : list string :=
  ["trainer"; "strategy"; "ddp"; "grad_reduce_in_fp32"].

(** Called in the same store, the variant returns the tree of the base
    recipe with the callback list replaced by its own: every other field is
    equal. *)
Definition only_callbacks_differ (base variant : M value) (s : store) : Prop :=
  exists tb tv cbs,
    returns_tree base s tb /\ returns_tree variant s tv /\
    tree_get tv callbacks_path = Some cbs /\
    tv = tree_set callbacks_path cbs tb.

(** The variant keeps every object that was in the store as it was: its
    final store is the initial one with new objects behind it. *)
Definition extends_store (variant : M value) (s : store) : Prop :=
  exists rv sv ext, variant s = OK (rv, sv) /\ sv = s ++ ext.

(** The base recipe [base] returns the same tree after a call of the
    variant as without it. *)
Definition base_unaffected (variant base : M value) (s : store) : Prop :=
  exists rv sv t,
    variant s = OK (rv, sv) /\ returns_tree base s t /\ returns_tree base sv t.

(** ** Further observations on the store *)

(** The overlap callback of nemotron4_22b as the object the variant stores. *)
Definition nemotron_overlap_obj : obj :=
  OBuildable KConfig (VName "MegatronCommOverlapCallback")
    [("tp_comm_overlap", VBool true);
     ("defer_embedding_wgrad_compute", VBool true);
     ("wgrad_deferral_limit", VInt 22)].

(** The overlap callback of gpt3_175b as the object the variant stores. *)
Definition gpt3_overlap_obj : obj :=
  OBuildable KConfig (VName "MegatronCommOverlapCallback")
    [("tp_comm_overlap", VBool true);
     ("tp_comm_overlap_cfg",
        VName "userbuffers_fp8_h100_h12288_tp4_mbs1_seqlen2048");
     ("defer_embedding_wgrad_compute", VBool true);
     ("wgrad_deferral_limit", VInt 50);
     ("overlap_param_gather_with_optimizer_step", VBool true);
     ("align_param_gather", VBool true)].


(** The branches of a recipe other than the optimizer. *)
Definition branches_but_optim : list string :=
  ["model"; "trainer"; "data"; "log"; "resume"].

(** How many fields and list entries of the segment [seg] hold a reference
    to location [l]. *)
Definition holds_ref (l : loc) (v : value) : bool :=
  match v with
  | VRef l' => Nat.eqb l' l
  | _ => false
  end.

Fixpoint count_refs (l : loc) (vs : list value) : nat :=
  match vs with
  | [] => 0
  | v :: r => (if holds_ref l v then 1 else 0) + count_refs l r
  end.

Fixpoint refs_to (l : loc) (seg : store) : nat :=
  match seg with
  | [] => 0
  | o :: r => count_refs l (children o) + refs_to l r
  end.

(** The segment is a tree hanging from [root]: no object holds a reference
    to [root], and every other object of the segment is held exactly once. *)
Definition tree_shaped (root : loc) (seg : store) : bool :=
  forallb
    (fun l => Nat.eqb (refs_to l seg) (if Nat.eqb l root then 0 else 1))
    (seq 0 (length seg)).

(** A builder that, in every store, returns the root of a graph made of the
    objects it allocated: [seg] is that graph with locations counted from
    the call's first allocation; it is a tree and no reference leaves it. *)
Definition builds_tree (m : M value) : Prop :=
  exists l0 seg,
    l0 < length seg /\ closed_seg seg = true /\ tree_shaped l0 seg = true /\
    forall s : store,
      m s = OK (VRef (length s + l0), s ++ fmap (reloc_obj (length s)) seg).

(** ** Lemmas on the store *)

Section store_lemmas.

Implicit Types (s seg ext : store) (v : value) (o : obj) (k l n : nat).

Lemma lookup_on_top s seg k : (s ++ seg) !! (length s + k) = seg !! k.
Proof. by rewrite lookup_app_r, Nat.add_comm, Nat.add_sub by lia. Qed.

Lemma assoc_reloc k name (args : list (string * value)) :
  assoc name (map (fun kv => (fst kv, reloc_value k (snd kv))) args)
  = option_map (reloc_value k) (assoc name args).
Proof.
  induction args as [|[a x] args IH]; simpl; [done|].
  destruct (String.eqb name a); auto.
Qed.

Lemma traverse_ext {A B} (f g : A -> option B) (xs : list A) :
  (forall x, In x xs -> f x = g x) -> traverse f xs = traverse g xs.
Proof.
  induction xs as [|x xs IH]; simpl; intros H; [done|].
  rewrite (H x) by auto. rewrite IH by auto. done.
Qed.

Lemma traverse_map {A B C} (f : B -> option C) (g : A -> B) (xs : list A) :
  traverse f (map g xs) = traverse (fun x => f (g x)) xs.
Proof. induction xs as [|x xs IH]; simpl; [done|]. by rewrite IH. Qed.

Lemma traverse_Some_ext {A B} (f g : A -> option B) (xs : list A) ys :
  (forall x y, In x xs -> f x = Some y -> g x = Some y) ->
  traverse f xs = Some ys -> traverse g xs = Some ys.
Proof.
  revert ys. induction xs as [|x xs IH]; simpl; intros ys H E; [done|].
  destruct (f x) as [y|] eqn:Ey; [|done].
  destruct (traverse f xs) as [ys'|] eqn:Eys; [|done].
  rewrite (H x y), (IH ys') by auto. done.
Qed.

(** Attribute reads commute with relocation. *)
Lemma attr_on_top s seg v name :
  attr (s ++ fmap (reloc_obj (length s)) seg) (reloc_value (length s) v) name
  = match attr seg v name with
    | OK x => OK (reloc_value (length s) x)
    | Raise e => Raise e
    end.
Proof.
  destruct v; try done.
  unfold attr, reloc_value. rewrite lookup_on_top, list_lookup_fmap.
  destruct (seg !! l) as [[b t args|items|c fields]|]; simpl; try done;
    rewrite assoc_reloc; by destruct (assoc name _).
Qed.

Lemma path_on_top s seg v names :
  path (s ++ fmap (reloc_obj (length s)) seg) (reloc_value (length s) v) names
  = match path seg v names with
    | OK x => OK (reloc_value (length s) x)
    | Raise e => Raise e
    end.
Proof.
  revert v. induction names as [|n names IH]; intros v; simpl; [done|].
  rewrite attr_on_top. destruct (attr seg v n); [apply IH|done].
Qed.

Lemma class_of_on_top s seg v :
  class_of (s ++ fmap (reloc_obj (length s)) seg) (reloc_value (length s) v)
  = class_of seg v.
Proof.
  destruct v; try done.
  unfold class_of, reloc_value. rewrite lookup_on_top, list_lookup_fmap.
  by destruct (seg !! l) as [[[] ? ?| |]|].
Qed.

(** The tree below a relocated value is the tree below the value. *)
Lemma reify_on_top n s seg v :
  reify n (s ++ fmap (reloc_obj (length s)) seg) (reloc_value (length s) v)
  = reify n seg v.
Proof.
  revert v. induction n as [|n IH]; intros v; destruct v; try done.
  cbn [reify reloc_value]. rewrite lookup_on_top, list_lookup_fmap.
  destruct (seg !! l) as [[b t args|items|c fields]|]; simpl; try done.
  - rewrite traverse_map. f_equal. apply traverse_ext. intros [a x] _.
    unfold on_snd. simpl. by rewrite IH.
  - rewrite traverse_map. f_equal. apply traverse_ext. intros x _. apply IH.
  - rewrite traverse_map. f_equal. apply traverse_ext. intros [a x] _.
    unfold on_snd. simpl. by rewrite IH.
Qed.

(** Objects allocated later do not change a tree that is already there. *)
Lemma reify_extend n s ext v t :
  reify n s v = Some t -> reify n (s ++ ext) v = Some t.
Proof.
  revert v t. induction n as [|n IH]; intros v t; destruct v; simpl; try done.
  destruct (s !! l) as [o|] eqn:El; [|done].
  rewrite (lookup_app_l_Some _ _ _ _ El).
  destruct o as [b tg args|items|c fields]; simpl.
  - destruct (traverse _ args) as [ys|] eqn:E; [|done].
    intros [= <-]. erewrite traverse_Some_ext; [done| |exact E].
    intros [a x] [a' y] _. unfold on_snd. simpl.
    destruct (reify n s x) eqn:Ex; [|done]. by rewrite (IH _ _ Ex).
  - destruct (traverse _ items) as [ys|] eqn:E; [|done].
    intros [= <-]. erewrite traverse_Some_ext; [done| |exact E].
    intros x y _. apply IH.
  - destruct (traverse _ fields) as [ys|] eqn:E; [|done].
    intros [= <-]. erewrite traverse_Some_ext; [done| |exact E].
    intros [a x] [a' y] _. unfold on_snd. simpl.
    destruct (reify n s x) eqn:Ex; [|done]. by rewrite (IH _ _ Ex).
Qed.

(** More depth does not change a tree either. *)
Lemma reify_deeper n m s v t :
  reify n s v = Some t -> reify (n + m) s v = Some t.
Proof.
  revert v t. induction n as [|n IH]; intros v t; destruct v; simpl; try done.
  - by destruct m.
  - by destruct m.
  - by destruct m.
  - by destruct m.
  - by destruct m.
  - by destruct m.
  - destruct (s !! l) as [[b tg args|items|c fields]|]; simpl; try done.
    + destruct (traverse _ args) as [ys|] eqn:E; [|done].
      intros [= <-]. erewrite traverse_Some_ext; [done| |exact E].
      intros [a x] [a' y] _. unfold on_snd. simpl.
      destruct (reify n s x) eqn:Ex; [|done]. by rewrite (IH _ _ Ex).
    + destruct (traverse _ items) as [ys|] eqn:E; [|done].
      intros [= <-]. erewrite traverse_Some_ext; [done| |exact E].
      intros x y _. apply IH.
    + destruct (traverse _ fields) as [ys|] eqn:E; [|done].
      intros [= <-]. erewrite traverse_Some_ext; [done| |exact E].
      intros [a x] [a' y] _. unfold on_snd. simpl.
      destruct (reify n s x) eqn:Ex; [|done]. by rewrite (IH _ _ Ex).
Qed.

End store_lemmas.

(** ** Running a builder on top of an existing store *)

(** Relocatability is proved statement by statement, each primitive of the
    store commuting with relocation. *)
Section simulation.

Variable s : store.

Lemma sim_bind {A B} (f : A -> A) (g : B -> B) m1 m2 (k1 k2 : A -> M B) :
  sim s f m1 m2 -> (forall a, sim s g (k1 (f a)) (k2 a)) ->
  sim s g (bind m1 k1) (bind m2 k2).
Proof.
  intros H1 H2 seg. unfold bind. rewrite H1.
  destruct (m2 seg) as [[a seg']|e]; [apply H2|done].
Qed.

Lemma sim_ret {A} (f : A -> A) a1 a2 : a1 = f a2 -> sim s f (ret a1) (ret a2).
Proof. by intros -> seg. Qed.

Lemma sim_alloc o1 o2 :
  o1 = reloc_obj (length s) o2 -> sim s (reloc_value (length s)) (alloc o1) (alloc o2).
Proof.
  intros -> seg. unfold alloc. simpl.
  by rewrite length_app, length_fmap, fmap_app, app_assoc.
Qed.

Lemma sim_getattr v1 v2 name :
  v1 = reloc_value (length s) v2 ->
  sim s (reloc_value (length s)) (getattr v1 name) (getattr v2 name).
Proof.
  intros -> seg. unfold getattr. rewrite attr_on_top.
  by destruct (attr seg v2 name).
Qed.

Lemma sim_isinstance v1 v2 cls :
  v1 = reloc_value (length s) v2 ->
  sim s (fun b => b) (isinstance v1 cls) (isinstance v2 cls).
Proof.
  intros -> seg. unfold isinstance. rewrite class_of_on_top.
  by destruct (class_of seg v2).
Qed.

Lemma assoc_set_reloc k name x (args : list (string * value)) :
  assoc_set name (reloc_value k x)
    (map (fun kv => (fst kv, reloc_value k (snd kv))) args)
  = map (fun kv => (fst kv, reloc_value k (snd kv))) (assoc_set name x args).
Proof.
  induction args as [|[a y] args IH]; simpl; [done|].
  destruct (String.eqb name a); simpl; [done|]. by rewrite IH.
Qed.

Lemma sim_setattr v1 v2 name x1 x2 :
  v1 = reloc_value (length s) v2 -> x1 = reloc_value (length s) x2 ->
  sim s (fun u => u) (setattr v1 name x1) (setattr v2 name x2).
Proof.
  intros -> -> seg. destruct v2; try done.
  unfold setattr. cbn [reloc_value]. rewrite lookup_on_top, list_lookup_fmap.
  destruct (seg !! l) as [[b t args|items|c fields]|]; simpl; try done;
    by rewrite insert_app_r, list_fmap_insert, assoc_set_reloc.
Qed.

Lemma sim_list_append v1 v2 x1 x2 :
  v1 = reloc_value (length s) v2 -> x1 = reloc_value (length s) x2 ->
  sim s (fun u => u) (list_append v1 x1) (list_append v2 x2).
Proof.
  intros -> -> seg. destruct v2; try done.
  unfold list_append. cbn [reloc_value]. rewrite lookup_on_top, list_lookup_fmap.
  destruct (seg !! l) as [[b t args|items|c fields]|]; simpl; try done.
  by rewrite insert_app_r, list_fmap_insert; simpl; rewrite map_app.
Qed.

Lemma reloc_of_opt_str o : of_opt_str o = reloc_value (length s) (of_opt_str o).
Proof. by destruct o. Qed.
Lemma reloc_of_opt_int o : of_opt_int o = reloc_value (length s) (of_opt_int o).
Proof. by destruct o. Qed.
Lemma reloc_of_opt_name o : of_opt_name o = reloc_value (length s) (of_opt_name o).
Proof. by destruct o. Qed.

End simulation.

Lemma sim_relocatable (m : M value) :
  (forall s : store, sim s (reloc_value (length s)) m m) -> relocatable m.
Proof.
  intros H s. specialize (H s []). simpl in H. rewrite app_nil_r in H.
  rewrite H. unfold on_top. by destruct (m []) as [[a seg]|e].
Qed.

Create HintDb recipes.
#[local] Hint Unfold
  precision.mixed_precision_plugin precision.bf16_mixed precision.fp16_mixed
  precision.bf16_with_fp8_mixed
  log_default.tensorboard_logger log_default.default_log
  log_default.default_resume
  optim_adam.distributed_fused_adam_with_cosine_annealing
  nemotron.nemotron_model nemotron.nemotron_trainer
  gpt3_175b.model gpt3_175b.trainer gpt3_175b.pretrain_recipe
  gpt3_175b.pretrain_recipe_performance
  nemotron4_22b.model nemotron4_22b.pretrain_recipe
  nemotron4_22b.override_plugins nemotron4_22b.override_ddp
  nemotron4_22b.append_overlap nemotron4_22b.pretrain_recipe_performance
  run_Config run_Partial new_list
  : recipes.

Ltac sim_obj :=
  cbn [reloc_obj reloc_value map fst snd];
  repeat first [ rewrite <- reloc_of_opt_str
               | rewrite <- reloc_of_opt_int
               | rewrite <- reloc_of_opt_name ];
  reflexivity.

Ltac sim_go :=
  lazymatch goal with
  | |- sim _ _ (bind _ _) (bind _ _) =>
      eapply sim_bind; [sim_go | intros ?; cbv beta; sim_go]
  | |- sim _ _ (alloc _) (alloc _) => apply sim_alloc; sim_obj
  | |- sim _ _ (getattr _ _) (getattr _ _) => apply sim_getattr; reflexivity
  | |- sim _ _ (isinstance _ _) (isinstance _ _) =>
      apply sim_isinstance; reflexivity
  | |- sim _ _ (setattr _ _ _) (setattr _ _ _) =>
      apply sim_setattr; reflexivity
  | |- sim _ _ (list_append _ _) (list_append _ _) =>
      apply sim_list_append; reflexivity
  | |- sim _ _ (ret _) (ret _) => apply sim_ret; reflexivity
  | |- sim _ _ (if ?c then _ else _) (if ?c then _ else _) =>
      destruct c; sim_go
  end.

Ltac exec := apply sim_relocatable; intros ?; autounfold with recipes; sim_go.

Section relocatable_builders.

Lemma gpt3_model_relocatable : relocatable gpt3_175b.model.
Proof. exec. Qed.

Lemma gpt3_trainer_relocatable tp pp ppt vpp cp sp nn ng ms :
  relocatable (gpt3_175b.trainer tp pp ppt vpp cp sp nn ng ms VNone).
Proof. exec. Qed.

Lemma gpt3_pretrain_relocatable dir name nn ng fn :
  relocatable (gpt3_175b.pretrain_recipe dir name nn ng fn).
Proof. exec. Qed.

Lemma gpt3_performance_relocatable dir name nn ng fn :
  relocatable (gpt3_175b.pretrain_recipe_performance dir name nn ng fn).
Proof. exec. Qed.

Lemma nemotron_model_relocatable : relocatable nemotron4_22b.model.
Proof. exec. Qed.

Lemma nemotron_pretrain_relocatable a :
  relocatable (nemotron4_22b.pretrain_recipe a).
Proof. exec. Qed.

Lemma nemotron_performance_relocatable dir name nn ng fn :
  relocatable (nemotron4_22b.pretrain_recipe_performance dir name nn ng fn).
Proof. exec. Qed.

End relocatable_builders.

(** ** Two calls in a row *)

Section reachability.

Implicit Types (s pre seg post : store) (v : value) (o : obj) (k l n : nat).

(** A set of locations closed under "holds a reference to" contains
    everything reachable from its members. *)
Lemma reachable_closed (P : nat -> Prop) s :
  (forall l o l', P l -> s !! l = Some o -> In (VRef l') (children o) -> P l') ->
  forall v l, reachable s v l -> (forall l0, v = VRef l0 -> P l0) -> P l.
Proof.
  intros HP v l H. induction H as [l|l o v l' Hl Hin _ IH]; intros Hv.
  - by apply Hv.
  - apply IH. intros l0 ->. eapply HP; eauto.
Qed.

Lemma children_reloc k o :
  children (reloc_obj k o) = map (reloc_value k) (children o).
Proof.
  destruct o as [b t args|items|c fields]; simpl; try done;
    by rewrite !map_map.
Qed.

Lemma closed_seg_lookup seg i o v :
  closed_seg seg = true -> seg !! i = Some o -> In v (children o) ->
  closed_value (length seg) v = true.
Proof.
  unfold closed_seg. rewrite forallb_forall. intros H Hi Hv.
  specialize (H o). rewrite forallb_forall in H. apply H; [|done].
  apply list_elem_of_In, list_elem_of_lookup. eauto.
Qed.

(** A closed segment placed anywhere in a store is a closed region. *)
Lemma closed_region pre seg post l o l' :
  closed_seg seg = true ->
  length pre <= l < length pre + length seg ->
  (pre ++ fmap (reloc_obj (length pre)) seg ++ post) !! l = Some o ->
  In (VRef l') (children o) ->
  length pre <= l' < length pre + length seg.
Proof.
  intros Hc Hl Hlk Hin.
  rewrite lookup_app_r in Hlk by lia.
  rewrite lookup_app_l in Hlk by (rewrite length_fmap; lia).
  rewrite list_lookup_fmap in Hlk.
  destruct (seg !! (l - length pre)) as [o0|] eqn:E; [|done].
  simpl in Hlk. injection Hlk as <-.
  rewrite children_reloc in Hin. apply in_map_iff in Hin as (v & Hv & Hin).
  pose proof (closed_seg_lookup _ _ _ _ Hc E Hin) as Hcv.
  destruct v; try done. simpl in Hv, Hcv. injection Hv as <-.
  apply Nat.ltb_lt in Hcv. lia.
Qed.

Lemma reachable_in_region pre seg post l0 l :
  closed_seg seg = true -> l0 < length seg ->
  reachable (pre ++ fmap (reloc_obj (length pre)) seg ++ post)
    (VRef (length pre + l0)) l ->
  length pre <= l < length pre + length seg.
Proof.
  intros Hc Hl0 H.
  apply (reachable_closed
           (fun l => length pre <= l < length pre + length seg) _
           (fun l o l' => closed_region pre seg post l o l' Hc) _ _ H).
  intros ? [= <-]. lia.
Qed.

End reachability.

Section relocatable_facts.

Variable m : M value.
Variable l0 : nat.
Variable seg : store.
Hypothesis Hreloc : relocatable m.
Hypothesis Hrun : m [] = OK (VRef l0, seg).

Lemma relocatable_run (s : store) :
  m s = OK (VRef (length s + l0), s ++ fmap (reloc_obj (length s)) seg).
Proof. by rewrite Hreloc, Hrun. Qed.

Lemma relocatable_reify (s : store) n :
  reify n (s ++ fmap (reloc_obj (length s)) seg) (VRef (length s + l0))
  = reify n seg (VRef l0).
Proof. apply (reify_on_top n s seg (VRef l0)). Qed.

Lemma relocatable_fresh_twice n t :
  l0 < length seg -> closed_seg seg = true ->
  reify n seg (VRef l0) = Some t ->
  forall s : store, fresh_twice m s.
Proof.
  intros Hl0 Hc Ht s.
  set (s1 := s ++ fmap (reloc_obj (length s)) seg).
  set (s2 := s1 ++ fmap (reloc_obj (length s1)) seg).
  assert (Hlen : length s1 = length s + length seg)
    by (unfold s1; rewrite length_app, length_fmap; lia).
  assert (R1 : forall l, reachable s2 (VRef (length s + l0)) l ->
                         length s <= l < length s + length seg).
  { intros l. unfold s2, s1. rewrite <- app_assoc.
    by apply reachable_in_region. }
  assert (R2 : forall l, reachable s2 (VRef (length s1 + l0)) l ->
                         length s1 <= l < length s1 + length seg).
  { intros l. unfold s2.
    rewrite <- (app_nil_r (fmap (reloc_obj (length s1)) seg)).
    by apply reachable_in_region. }
  exists (length s + l0), s1, (length s1 + l0), s2.
  split; [apply relocatable_run|]. split; [apply relocatable_run|].
  split; [lia|]. split; [|split; [|split]].
  - exists n, t. split.
    + unfold s2. apply reify_extend. unfold s1. by rewrite relocatable_reify.
    + unfold s2. by rewrite relocatable_reify.
  - intros l Hl. apply R1 in Hl. lia.
  - intros l Hl. apply R2 in Hl. lia.
  - intros l H1 H2. apply R1 in H1. apply R2 in H2. lia.
Qed.

End relocatable_facts.

(** ** What a recipe returns *)

Lemma path_on_top_ref (s seg : store) l0 names :
  path (s ++ fmap (reloc_obj (length s)) seg) (VRef (length s + l0)) names
  = match path seg (VRef l0) names with
    | OK x => OK (reloc_value (length s) x)
    | Raise e => Raise e
    end.
Proof. apply (path_on_top s seg (VRef l0)). Qed.

Lemma class_of_on_top_ref (s seg : store) l0 :
  class_of (s ++ fmap (reloc_obj (length s)) seg) (VRef (length s + l0))
  = class_of seg (VRef l0).
Proof. apply (class_of_on_top s seg (VRef l0)). Qed.

Lemma lookup_on_top_fmap (s seg : store) l0 :
  (s ++ fmap (reloc_obj (length s)) seg) !! (length s + l0)
  = fmap (reloc_obj (length s)) (seg !! l0).
Proof. by rewrite lookup_on_top, list_lookup_fmap. Qed.

Lemma relocatable_returns_tree m l0 (seg : store) t :
  relocatable m -> m [] = OK (VRef l0, seg) ->
  reify 4 seg (VRef l0) = Some t ->
  forall s : store, returns_tree m s t.
Proof.
  intros Hr Hrun Ht s. eexists _, _. split.
  - apply (relocatable_run m l0 seg Hr Hrun s).
  - intros n. rewrite relocatable_reify. by apply reify_deeper.
Qed.

(** [run_in s H]: give the result of a relocatable builder (lemma [H]) in the
    store [s] from its run in the empty store. *)
Ltac run_in s H :=
  lazymatch type of H with
  | relocatable ?m =>
      let e := eval vm_compute in (m []) in
      lazymatch e with
      | OK (VRef ?l0, ?seg) =>
          exists (VRef (length s + l0)), (s ++ fmap (reloc_obj (length s)) seg);
          split; [exact (relocatable_run m l0 seg H (eq_refl e) s)|]
      end
  end.

Ltac run_with H :=
  eapply relocatable_run; [exact H | vm_compute; reflexivity].

Ltac read_store :=
  repeat first [ rewrite path_on_top_ref | rewrite class_of_on_top_ref
               | rewrite lookup_on_top_fmap ];
  vm_compute; try reflexivity.

(** C4: gpt3_175b [pretrain_recipe(num_nodes=64, num_gpus_per_node=8)]
    returns a recipe whose trainer has [num_nodes = 64] and [devices = 8] and
    whose strategy has the defaults of [trainer],
    [tensor_model_parallel_size = 4] and [pipeline_model_parallel_size = 8];
    this for every [dir], [name] and [fn] and in every store. *)
Theorem gpt3_pretrain_64_nodes_8_gpus dir name fn (s : store) :
  exists r s',
    gpt3_175b.pretrain_recipe dir name 64 8 fn s = OK (r, s') /\
    path s' r ["trainer"; "num_nodes"] = OK (VInt 64) /\
    path s' r ["trainer"; "devices"] = OK (VInt 8) /\
    path s' r ["trainer"; "strategy"; "tensor_model_parallel_size"]
      = OK (VInt gpt3_175b.default.tensor_parallelism) /\
    path s' r ["trainer"; "strategy"; "pipeline_model_parallel_size"]
      = OK (VInt gpt3_175b.default.pipeline_parallelism) /\
    gpt3_175b.default.tensor_parallelism = 4%Z /\
    gpt3_175b.default.pipeline_parallelism = 8%Z.
Proof.
  run_in s (gpt3_pretrain_relocatable dir name 64 8 fn).
  repeat split; read_store.
Qed.

(** C6: with every argument at its default, the base [pretrain_recipe] of
    gpt3_175b and of nemotron4_22b returns a recipe in which each of the six
    branches model, trainer, data, log, optim and resume is present and is a
    configuration node (not [None]). *)
Theorem default_recipes_have_six_branches (s : store) :
  (exists r s',
     gpt3_175b.pretrain_recipe None "default" 1 8 "pretrain" s = OK (r, s') /\
     Forall (branch_present s' r) six_branches) /\
  (exists r s',
     nemotron4_22b.pretrain_recipe nemotron4_22b.default s = OK (r, s') /\
     Forall (branch_present s' r) six_branches).
Proof.
  split.
  - run_in s (gpt3_pretrain_relocatable None "default" 1 8 "pretrain").
    repeat constructor; eexists; (split; [read_store|read_store]).
  - run_in s (nemotron_pretrain_relocatable nemotron4_22b.default).
    repeat constructor; eexists; (split; [read_store|read_store]).
Qed.

(** The builders have no failing branch.  Each proof is by running the
    builder: nothing in it reads the parallelism degrees or the device
    counts, they are only stored. *)
Lemma alloc_returns o (s : store) :
  alloc o s = OK (VRef (length s), s ++ [o]).
Proof. reflexivity. Qed.

Lemma class_of_last (s : store) o :
  class_of (s ++ [o]) (VRef (length s))
  = match o with
    | OBuildable KConfig _ _ => Some "run.Config"
    | OBuildable KPartial _ _ => Some "run.Partial"
    | OList _ => Some "list"
    | OInstance c _ => Some c
    end.
Proof.
  unfold class_of. by rewrite (list_lookup_middle s [] o (length s) eq_refl).
Qed.

Lemma gpt3_trainer_returns tp pp ppt vpp cp sp nn ng ms cb (s : store) :
  exists r s',
    gpt3_175b.trainer tp pp ppt vpp cp sp nn ng ms cb s = OK (r, s') /\
    class_of s' r = Some "run.Config".
Proof.
  autounfold with recipes. unfold bind. rewrite !alloc_returns.
  eexists _, _. split; [reflexivity|]. by rewrite class_of_last.
Qed.

Lemma relocatable_returns_partial m l0 (seg : store) :
  relocatable m -> m [] = OK (VRef l0, seg) ->
  class_of seg (VRef l0) = Some "run.Partial" ->
  forall s : store, exists r s', m s = OK (r, s') /\ class_of s' r = Some "run.Partial".
Proof.
  intros Hr Hrun Hc s. eexists _, _. split.
  - apply (relocatable_run m l0 seg Hr Hrun s).
  - by rewrite class_of_on_top_ref.
Qed.

Lemma nemotron_pretrain_returns a (s : store) :
  exists r s',
    nemotron4_22b.pretrain_recipe a s = OK (r, s') /\
    class_of s' r = Some "run.Partial".
Proof.
  destruct (String.eqb (nemotron4_22b.precision a) "16-mixed") eqn:E1;
    [|destruct (String.eqb (nemotron4_22b.precision a) "bf16-mixed") eqn:E2];
    (eapply relocatable_returns_partial;
     [ apply nemotron_pretrain_relocatable
     | autounfold with recipes; rewrite ?E1, ?E2; reflexivity
     | reflexivity ]).
Qed.

(** C9: the builders validate nothing and cannot fail.  For every argument
    tuple and in every store, [trainer] of gpt3_175b returns a configuration
    node, and [pretrain_recipe] and [pretrain_recipe_performance] of both
    files return a [run.Partial]; the parallelism degrees and the device
    counts are arbitrary integers, with no relation assumed between them. *)
Theorem builders_never_raise (s : store) :
  (forall tp pp ppt vpp cp sp nn ng ms cb,
     exists r s',
       gpt3_175b.trainer tp pp ppt vpp cp sp nn ng ms cb s = OK (r, s') /\
       class_of s' r = Some "run.Config") /\
  (forall dir name nn ng fn,
     exists r s',
       gpt3_175b.pretrain_recipe dir name nn ng fn s = OK (r, s') /\
       class_of s' r = Some "run.Partial") /\
  (forall a,
     exists r s',
       nemotron4_22b.pretrain_recipe a s = OK (r, s') /\
       class_of s' r = Some "run.Partial") /\
  (forall dir name nn ng fn,
     exists r s',
       gpt3_175b.pretrain_recipe_performance dir name nn ng fn s = OK (r, s') /\
       class_of s' r = Some "run.Partial") /\
  (forall dir name nn ng fn,
     exists r s',
       nemotron4_22b.pretrain_recipe_performance dir name nn ng fn s
         = OK (r, s') /\
       class_of s' r = Some "run.Partial").
Proof.
  split; [|split; [|split; [|split]]].
  - intros. apply gpt3_trainer_returns.
  - intros. run_in s (gpt3_pretrain_relocatable dir name nn ng fn). read_store.
  - intros. apply nemotron_pretrain_returns.
  - intros. run_in s (gpt3_performance_relocatable dir name nn ng fn). read_store.
  - intros. run_in s (nemotron_performance_relocatable dir name nn ng fn).
    read_store.
Qed.

(** A trainer whose parallelism degrees cannot be laid out on the devices
    (4 * 8 = 32 does not divide 3 * 5 = 15) is built all the same. *)
Example gpt3_trainer_inconsistent_degrees :
  exists r s',
    gpt3_175b.trainer 4 8 None None 1 true 3 5 10 VNone [] = OK (r, s') /\
    path s' r ["strategy"; "tensor_model_parallel_size"] = OK (VInt 4) /\
    path s' r ["num_nodes"] = OK (VInt 3) /\
    path s' r ["devices"] = OK (VInt 5) /\
    (3 * 5 mod (4 * 8) <> 0)%Z.
Proof. eexists _, _. repeat split. done. Qed.

(** C10: the gpt3_175b performance variant overrides no gradient-reduction
    precision.  For every argument tuple the returned tree has
    [trainer.strategy.ddp.grad_reduce_in_fp32 = True], as [trainer] set it,
    and the precision plugin is the very object the base recipe builds,
    unchanged. *)
Theorem gpt3_performance_keeps_precision dir name nn ng fn (s : store) :
  exists rb sb rv sv,
    gpt3_175b.pretrain_recipe dir name nn ng fn s = OK (rb, sb) /\
    gpt3_175b.pretrain_recipe_performance dir name nn ng fn s = OK (rv, sv) /\
    path sb rb ["trainer"; "strategy"; "ddp"; "grad_reduce_in_fp32"]
      = OK (VBool true) /\
    path sv rv ["trainer"; "strategy"; "ddp"; "grad_reduce_in_fp32"]
      = OK (VBool true) /\
    exists l plugin,
      path sb rb ["trainer"; "plugins"] = OK (VRef l) /\
      path sv rv ["trainer"; "plugins"] = OK (VRef l) /\
      sb !! l = Some plugin /\ sv !! l = Some plugin.
Proof.
  eexists _, _, _, _.
  split; [run_with (gpt3_pretrain_relocatable dir name nn ng fn)|].
  split; [run_with (gpt3_performance_relocatable dir name nn ng fn)|].
  split; [read_store|]. split; [read_store|].
  eexists (length s + 6), _.
  split; [read_store|]. split; [read_store|].
  split; rewrite lookup_on_top_fmap; reflexivity.
Qed.

(** ** The data module *)

(** C5, as stated, fails for gpt3_175b: called with its default arguments,
    the recipe has [global_batch_size = 2048] in its data module, which is
    none of the five arguments; the function has no batch-size or
    sequence-length parameter. *)
Lemma gpt3_data_fields_not_arguments :
  ~ data_fields_are_arguments
      (gpt3_pretrain_kwargs None "default" 1 8 "pretrain")
      (gpt3_175b.pretrain_recipe None "default" 1 8 "pretrain") [].
Proof.
  intros (r & s' & Hrun & H).
  vm_compute in Hrun. injection Hrun as <- <-.
  apply Forall_cons in H as [(v & Hv & Hin) _].
  vm_compute in Hv. injection Hv as <-.
  simpl in Hin. intuition discriminate.
Qed.

(** For nemotron4_22b the same property holds, on every argument tuple. *)
Lemma nemotron_data_fields_are_arguments a (s : store) :
  data_fields_are_arguments (nemotron_pretrain_kwargs a)
    (nemotron4_22b.pretrain_recipe a) s.
Proof.
  destruct a as [dir name tp pp ppt vpp cp sp nn ng ms prec agb gcv ltb lvb
                   lens vci gbs mbs sl ws cs minlr maxlr fn].
  destruct (String.eqb prec "16-mixed") eqn:E1;
    [|destruct (String.eqb prec "bf16-mixed") eqn:E2];
    (eexists _, _; split;
     [ eapply relocatable_run;
       [ apply nemotron_pretrain_relocatable
       | autounfold with recipes; cbn [nemotron4_22b.precision];
         rewrite ?E1, ?E2; reflexivity ]
     | repeat constructor; eexists;
       (split; [rewrite path_on_top_ref; reflexivity | simpl; tauto]) ]).
Qed.

(** C5, amended: nemotron4_22b [pretrain_recipe] copies its
    [global_batch_size], [micro_batch_size] and [seq_length] arguments into
    the data module as they are; gpt3_175b [pretrain_recipe], which has no
    such parameters, always builds the data module with [seq_length = 2048],
    [global_batch_size = 2048] and [micro_batch_size = 2]. *)
Theorem data_module_fields (s : store) :
  (forall a, exists r s',
     nemotron4_22b.pretrain_recipe a s = OK (r, s') /\
     path s' r ["data"; "global_batch_size"]
       = OK (VInt (nemotron4_22b.global_batch_size a)) /\
     path s' r ["data"; "micro_batch_size"]
       = OK (VInt (nemotron4_22b.micro_batch_size a)) /\
     path s' r ["data"; "seq_length"]
       = OK (VInt (nemotron4_22b.seq_length a))) /\
  (forall dir name nn ng fn, exists r s',
     gpt3_175b.pretrain_recipe dir name nn ng fn s = OK (r, s') /\
     path s' r ["data"; "global_batch_size"] = OK (VInt 2048) /\
     path s' r ["data"; "micro_batch_size"] = OK (VInt 2) /\
     path s' r ["data"; "seq_length"] = OK (VInt 2048)).
Proof.
  split.
  - intros a.
    destruct a as [dir name tp pp ppt vpp cp sp nn ng ms prec agb gcv ltb lvb
                     lens vci gbs mbs sl ws cs minlr maxlr fn].
    destruct (String.eqb prec "16-mixed") eqn:E1;
      [|destruct (String.eqb prec "bf16-mixed") eqn:E2];
      (eexists _, _; split;
       [ eapply relocatable_run;
         [ apply nemotron_pretrain_relocatable
         | autounfold with recipes; cbn [nemotron4_22b.precision];
           rewrite ?E1, ?E2; reflexivity ]
       | repeat split; rewrite path_on_top_ref; reflexivity ]).
  - intros. run_in s (gpt3_pretrain_relocatable dir name nn ng fn).
    repeat split; read_store.
Qed.

(** ** The callback list of the performance variants *)

Lemma reify_on_top_ref n (s seg : store) l0 :
  reify n (s ++ fmap (reloc_obj (length s)) seg) (VRef (length s + l0))
  = reify n seg (VRef l0).
Proof. apply (reify_on_top n s seg (VRef l0)). Qed.

Lemma list_items_on_top (s seg : store) r :
  list_items (s ++ fmap (reloc_obj (length s)) seg)
    (match r with
     | OK x => OK (reloc_value (length s) x)
     | Raise e => Raise e
     end)
  = fmap (map (reloc_value (length s))) (list_items seg r).
Proof.
  destruct r as [[]|]; try done. unfold list_items, reloc_value.
  rewrite lookup_on_top_fmap. by destruct (seg !! l) as [[]|].
Qed.

Ltac read_items :=
  rewrite path_on_top_ref, list_items_on_top; reflexivity.

Ltac read_tree :=
  intros; rewrite reify_on_top_ref; apply (reify_deeper 1); reflexivity.

(** C3: for every argument tuple, the callback list returned by each
    performance variant has exactly one entry more than the list of the
    base [pretrain_recipe] called with the same arguments, and the entry is
    the [MegatronCommOverlapCallback] configuration with the field values
    written in the variant. *)
Theorem performance_appends_overlap_callback dir name nn ng fn (s : store) :
  appends_callback
    (gpt3_175b.pretrain_recipe dir name nn ng fn)
    (gpt3_175b.pretrain_recipe_performance dir name nn ng fn)
    s gpt3_overlap_callback /\
  appends_callback
    (nemotron4_22b.pretrain_recipe
       (nemotron4_22b.base_args dir name nn ng fn))
    (nemotron4_22b.pretrain_recipe_performance dir name nn ng fn)
    s nemotron_overlap_callback.
Proof.
  split.
  - eexists _, _, _, _, [VRef (length s + 2)], (VRef (length s + 14)).
    split; [run_with (gpt3_pretrain_relocatable dir name nn ng fn)|].
    split; [run_with (gpt3_performance_relocatable dir name nn ng fn)|].
    split; [read_items|]. split; [read_items|]. split; [reflexivity|].
    split; [read_tree|].
    repeat constructor. eexists. split; read_tree.
  - eexists _, _, _, _, [VRef (length s + 2)], (VRef (length s + 14)).
    split; [run_with (nemotron_pretrain_relocatable
                        (nemotron4_22b.base_args dir name nn ng fn))|].
    split; [run_with (nemotron_performance_relocatable dir name nn ng fn)|].
    split; [read_items|]. split; [read_items|]. split; [reflexivity|].
    split; [read_tree|].
    repeat constructor. eexists. split; read_tree.
Qed.

(** ** The guarded overrides of the nemotron4_22b performance variant *)

(** On an instance of [DistributedDataParallelConfig] the guard holds and
    the assignment is made ... *)
Example override_ddp_on_instance :
  let s := [OInstance "DistributedDataParallelConfig"
              [("grad_reduce_in_fp32", VBool true)];
            OBuildable KConfig (VName "nl.MegatronStrategy") [("ddp", VRef 0)];
            OBuildable KConfig (VName "nl.Trainer") [("strategy", VRef 1)];
            OBuildable KPartial (VName "pretrain") [("trainer", VRef 2)]] in
  exists s', nemotron4_22b.override_ddp (VRef 3) s = OK (tt, s') /\
             path s' (VRef 3) ddp_flag = OK (VBool false).
Proof. eexists. split; reflexivity. Qed.

(** ... on a [run.Config] that targets the class it is not. *)
Example override_ddp_on_config :
  let s := [OBuildable KConfig (VName "DistributedDataParallelConfig")
              [("grad_reduce_in_fp32", VBool true)];
            OBuildable KConfig (VName "nl.MegatronStrategy") [("ddp", VRef 0)];
            OBuildable KConfig (VName "nl.Trainer") [("strategy", VRef 1)];
            OBuildable KPartial (VName "pretrain") [("trainer", VRef 2)]] in
  nemotron4_22b.override_ddp (VRef 3) s = OK (tt, s) /\
  path s (VRef 3) ddp_flag = OK (VBool true).
Proof. split; reflexivity. Qed.

(** C1: the nemotron4_22b performance variant does not clear the flag.  For
    every argument tuple the returned tree has the overlap callback with
    [wgrad_deferral_limit = 22] in its callback list, but
    [trainer.strategy.ddp] is a [run.Config] node, the [isinstance] guard of
    line 215 is false on it, and [grad_reduce_in_fp32] is still [True]; the
    same holds for [trainer.plugins]. *)
Theorem nemotron_performance_flags_not_cleared dir name nn ng fn (s : store) :
  exists r s',
    nemotron4_22b.pretrain_recipe_performance dir name nn ng fn s = OK (r, s') /\
    path s' r ddp_flag = OK (VBool true) /\
    path s' r plugins_flag = OK (VBool true) /\
    (exists ddp, path s' r ["trainer"; "strategy"; "ddp"] = OK ddp /\
                 class_of s' ddp = Some "run.Config") /\
    (exists items x,
       list_items s' (path s' r callbacks_path) = Some items /\
       In x items /\
       path s' x ["wgrad_deferral_limit"] = OK (VInt 22) /\
       forall n, reify (1 + n) s' x = Some nemotron_overlap_callback).
Proof.
  run_in s (nemotron_performance_relocatable dir name nn ng fn).
  split; [read_store|]. split; [read_store|]. split.
  - exists (VRef (length s + 4)). split; read_store.
  - exists [VRef (length s + 2); VRef (length s + 14)], (VRef (length s + 14)).
    split; [read_items|]. split; [simpl; auto|]. split; [read_store|read_tree].
Qed.

(** The failing input of C1: the call with every argument at its default. *)
Example nemotron_performance_default_call :
  exists r s',
    nemotron4_22b.pretrain_recipe_performance None "default" 8 8 "pretrain" []
      = OK (r, s') /\
    path s' r ddp_flag = OK (VBool true).
Proof. eexists _, _. split; reflexivity. Qed.

Lemma path2 (s : store) v a b x :
  path s v [a; b] = OK x ->
  exists y, attr s v a = OK y /\ attr s y b = OK x.
Proof.
  simpl. destruct (attr s v a) as [y|]; [|done].
  destruct (attr s y b) as [z|] eqn:E; [|done]. intros [= <-]. eauto.
Qed.

Lemma path3 (s : store) v a b c x :
  path s v [a; b; c] = OK x ->
  exists y z, attr s v a = OK y /\ attr s y b = OK z /\ attr s z c = OK x.
Proof.
  simpl. destruct (attr s v a) as [y|]; [|done].
  destruct (attr s y b) as [z|] eqn:E; [|done].
  destruct (attr s z c) as [w|] eqn:E'; [|done]. intros [= <-]. eauto.
Qed.

(** C2: the guarded overrides degrade silently.  Whatever the shape of the
    recipe, when [recipe.trainer.plugins] (respectively
    [recipe.trainer.strategy.ddp]) fails the [isinstance] test, the guarded
    statement raises nothing and leaves the store as it is.  And for every
    argument tuple [pretrain_recipe_performance] returns a complete tree
    with its six branches, in which both flags have the value the base
    recipe gave them. *)
Theorem guarded_overrides_degrade_silently :
  (forall (s : store) recipe p,
     path s recipe ["trainer"; "plugins"] = OK p ->
     isinstance p "MegatronMixedPrecision" s = OK (false, s) ->
     nemotron4_22b.override_plugins recipe s = OK (tt, s)) /\
  (forall (s : store) recipe d,
     path s recipe ["trainer"; "strategy"; "ddp"] = OK d ->
     isinstance d "DistributedDataParallelConfig" s = OK (false, s) ->
     nemotron4_22b.override_ddp recipe s = OK (tt, s)) /\
  (forall dir name nn ng fn (s : store),
     exists rb sb rv sv t,
       nemotron4_22b.pretrain_recipe
         (nemotron4_22b.base_args dir name nn ng fn) s = OK (rb, sb) /\
       nemotron4_22b.pretrain_recipe_performance dir name nn ng fn s
         = OK (rv, sv) /\
       Forall (branch_present sv rv) six_branches /\
       (forall n, reify (4 + n) sv rv = Some t) /\
       path sv rv plugins_flag = path sb rb plugins_flag /\
       path sv rv ddp_flag = path sb rb ddp_flag).
Proof.
  split; [|split].
  - intros s recipe p Hp Hc. apply path2 in Hp as (t & Ht & Hp).
    unfold nemotron4_22b.override_plugins, bind, getattr.
    by rewrite Ht, Hp, Hc.
  - intros s recipe d Hd Hc. apply path3 in Hd as (t & st & Ht & Hst & Hd).
    unfold nemotron4_22b.override_ddp, bind, getattr.
    by rewrite Ht, Hst, Hd, Hc.
  - intros dir0 name nn ng fn s.
    destruct dir0 as [d|]; [set (dir := Some d)|set (dir := @None string)].
    all: eexists _, _, _, _, _.
    all: split; [run_with (nemotron_pretrain_relocatable
                        (nemotron4_22b.base_args dir name nn ng fn))|].
    all: split; [run_with (nemotron_performance_relocatable dir name nn ng fn)|].
    all: split;
      [repeat constructor; eexists; (split; [read_store|read_store])|].
    all: split.
    all: try (intros n; rewrite reify_on_top_ref; apply (reify_deeper 4);
              reflexivity).
    all: split; unfold plugins_flag, ddp_flag; rewrite !path_on_top_ref;
        reflexivity.
Qed.

(** A recipe whose trainer has no precision plugin and whose strategy holds
    a plain number for [ddp]: both guards fail, nothing is raised, nothing
    changes. *)
Lemma guarded_overrides_degrade_silently_witness :
  let s := [OBuildable KConfig (VName "nl.MegatronStrategy") [("ddp", VInt 0)];
            OBuildable KConfig (VName "nl.Trainer")
              [("plugins", VNone); ("strategy", VRef 0)];
            OBuildable KPartial (VName "pretrain") [("trainer", VRef 1)]] in
  nemotron4_22b.override_plugins (VRef 2) s = OK (tt, s) /\
  nemotron4_22b.override_ddp (VRef 2) s = OK (tt, s).
Proof.
  intros s. split.
  - apply (proj1 guarded_overrides_degrade_silently s (VRef 2) VNone);
      reflexivity.
  - apply (proj1 (proj2 guarded_overrides_degrade_silently) s (VRef 2) (VInt 0));
      reflexivity.
Defined.

(** ** Repeated calls *)

Ltac fresh_twice_by H :=
  eapply relocatable_fresh_twice with (n := 4);
  [ exact H | vm_compute; reflexivity | cbn; lia
  | vm_compute; reflexivity | vm_compute; reflexivity ].

Lemma nemotron_pretrain_fresh_twice a (s : store) :
  fresh_twice (nemotron4_22b.pretrain_recipe a) s.
Proof.
  pose proof (nemotron_pretrain_relocatable a) as H. revert H.
  destruct a as [dir name tp pp ppt vpp cp sp nn ng ms prec agb gcv ltb lvb
                   lens vci gbs mbs sl ws cs minlr maxlr fn].
  intros H.
  destruct (String.eqb prec "16-mixed") eqn:E1;
    [|destruct (String.eqb prec "bf16-mixed") eqn:E2];
    destruct dir, ppt, vpp;
    (eapply relocatable_fresh_twice with (n := 4);
     [ exact H
     | autounfold with recipes; cbn [nemotron4_22b.precision];
       rewrite ?E1, ?E2; reflexivity
     | cbn; lia | reflexivity | reflexivity ]).
Qed.

(** C7, as stated, fails for [trainer] of gpt3_175b: called twice with the
    same list as [callbacks], both trainer nodes hold that one list, which
    neither call allocated. *)
Lemma gpt3_trainer_shares_callbacks :
  ~ fresh_twice
      (gpt3_175b.trainer 4 8 (Some "torch.bfloat16") (Some 6%Z) 1 true 64 8
         1168251 (VRef 0))
      [OList []].
Proof.
  intros (l1 & s1 & l2 & s2 & H1 & H2 & _ & _ & Hf & _).
  vm_compute in H1. injection H1 as <- <-.
  vm_compute in H2. injection H2 as <- <-.
  assert (H : 1 <= 0); [|lia].
  apply Hf. eapply reach_child; [reflexivity| |apply reach_here].
  simpl. auto 10.
Qed.

(** C7, amended: [model], [pretrain_recipe] and
    [pretrain_recipe_performance] of both files, and [trainer] of gpt3_175b
    called with [callbacks=None], are deterministic and allocation-fresh:
    for every argument tuple and in every store, two calls in a row return
    two different objects with equal trees, each made only of objects its
    own call allocated, and with no object in common.  (Module-level objects
    named in a tree, such as the target classes, [fn], the dtype and the
    overlap preset, are not store objects; a list passed as [callbacks] to
    [trainer] is stored by reference and is left out.) *)
Theorem recipes_fresh_and_deterministic (s : store) :
  fresh_twice gpt3_175b.model s /\
  (forall tp pp ppt vpp cp sp nn ng ms,
     fresh_twice (gpt3_175b.trainer tp pp ppt vpp cp sp nn ng ms VNone) s) /\
  (forall dir name nn ng fn,
     fresh_twice (gpt3_175b.pretrain_recipe dir name nn ng fn) s) /\
  (forall dir name nn ng fn,
     fresh_twice (gpt3_175b.pretrain_recipe_performance dir name nn ng fn) s) /\
  fresh_twice nemotron4_22b.model s /\
  (forall a, fresh_twice (nemotron4_22b.pretrain_recipe a) s) /\
  (forall dir name nn ng fn,
     fresh_twice (nemotron4_22b.pretrain_recipe_performance dir name nn ng fn) s).
Proof.
  split; [fresh_twice_by gpt3_model_relocatable|].
  split.
  { intros.
    pose proof (gpt3_trainer_relocatable tp pp ppt vpp cp sp nn ng ms) as H.
    destruct ppt, vpp; fresh_twice_by H. }
  split.
  { intros. pose proof (gpt3_pretrain_relocatable dir name nn ng fn) as H.
    destruct dir; fresh_twice_by H. }
  split.
  { intros. pose proof (gpt3_performance_relocatable dir name nn ng fn) as H.
    destruct dir; fresh_twice_by H. }
  split; [fresh_twice_by nemotron_model_relocatable|].
  split; [intros; apply nemotron_pretrain_fresh_twice|].
  intros. pose proof (nemotron_performance_relocatable dir name nn ng fn) as H.
  destruct dir; fresh_twice_by H.
Qed.

(** ** What the performance variants change *)

Lemma gpt3_pretrain_tree dir name nn ng fn :
  exists t, forall s : store,
    returns_tree (gpt3_175b.pretrain_recipe dir name nn ng fn) s t.
Proof.
  pose proof (gpt3_pretrain_relocatable dir name nn ng fn) as H.
  destruct dir; eexists; (eapply relocatable_returns_tree;
    [exact H | vm_compute; reflexivity | vm_compute; reflexivity]).
Qed.

Lemma nemotron_pretrain_tree a :
  exists t, forall s : store,
    returns_tree (nemotron4_22b.pretrain_recipe a) s t.
Proof.
  pose proof (nemotron_pretrain_relocatable a) as H. revert H.
  destruct a as [dir name tp pp ppt vpp cp sp nn ng ms prec agb gcv ltb lvb
                   lens vci gbs mbs sl ws cs minlr maxlr fn].
  intros H.
  destruct (String.eqb prec "16-mixed") eqn:E1;
    [|destruct (String.eqb prec "bf16-mixed") eqn:E2];
    destruct dir, ppt, vpp;
    eexists;
    (eapply relocatable_returns_tree;
     [ exact H
     | autounfold with recipes; cbn [nemotron4_22b.precision];
       rewrite ?E1, ?E2; reflexivity
     | reflexivity ]).
Qed.

Lemma relocatable_extends_store m l0 (seg : store) :
  relocatable m -> m [] = OK (VRef l0, seg) ->
  forall s : store, extends_store m s.
Proof.
  intros Hr Hrun s. eexists _, _, _. split; [|reflexivity].
  apply (relocatable_run m l0 seg Hr Hrun s).
Qed.

Lemma base_unaffected_intro variant base (s : store) :
  extends_store variant s ->
  (exists t, forall s0 : store, returns_tree base s0 t) ->
  base_unaffected variant base s.
Proof.
  intros (rv & sv & ext & Hv & _) (t & Ht).
  exists rv, sv, t. auto.
Qed.

Ltac only_callbacks_by Hb Hv :=
  eexists _, _, _;
  split; [eapply relocatable_returns_tree;
          [exact Hb | vm_compute; reflexivity | vm_compute; reflexivity]|];
  split; [eapply relocatable_returns_tree;
          [exact Hv | vm_compute; reflexivity | vm_compute; reflexivity]|];
  split; vm_compute; reflexivity.

(** C8: the performance variants change only their own tree, and only its
    callback list.  For every argument tuple and in every store: the tree
    the variant returns is the tree of the base recipe (same arguments) with
    the callback list replaced, every other field being equal, the two
    [grad_reduce_in_fp32] fields included; the objects that were in the
    store before the call are all still there unchanged; and any later call
    of the base recipe returns the tree it would have returned without the
    variant. *)
Theorem performance_variants_frame dir name nn ng fn (s : store) :
  (only_callbacks_differ
     (gpt3_175b.pretrain_recipe dir name nn ng fn)
     (gpt3_175b.pretrain_recipe_performance dir name nn ng fn) s /\
   extends_store (gpt3_175b.pretrain_recipe_performance dir name nn ng fn) s /\
   forall dir' name' nn' ng' fn',
     base_unaffected
       (gpt3_175b.pretrain_recipe_performance dir name nn ng fn)
       (gpt3_175b.pretrain_recipe dir' name' nn' ng' fn') s) /\
  (only_callbacks_differ
     (nemotron4_22b.pretrain_recipe
        (nemotron4_22b.base_args dir name nn ng fn))
     (nemotron4_22b.pretrain_recipe_performance dir name nn ng fn) s /\
   extends_store
     (nemotron4_22b.pretrain_recipe_performance dir name nn ng fn) s /\
   forall a',
     base_unaffected
       (nemotron4_22b.pretrain_recipe_performance dir name nn ng fn)
       (nemotron4_22b.pretrain_recipe a') s).
Proof.
  pose proof (gpt3_pretrain_relocatable dir name nn ng fn) as Hb1.
  pose proof (gpt3_performance_relocatable dir name nn ng fn) as Hv1.
  pose proof (nemotron_pretrain_relocatable
                (nemotron4_22b.base_args dir name nn ng fn)) as Hb2.
  pose proof (nemotron_performance_relocatable dir name nn ng fn) as Hv2.
  assert (E1 : extends_store
                 (gpt3_175b.pretrain_recipe_performance dir name nn ng fn) s).
  { eapply relocatable_extends_store; [exact Hv1|vm_compute; reflexivity]. }
  assert (E2 : extends_store
                 (nemotron4_22b.pretrain_recipe_performance dir name nn ng fn) s).
  { eapply relocatable_extends_store; [exact Hv2|vm_compute; reflexivity]. }
  split; (split; [|split]); try assumption.
  - clear E1 E2 Hb2 Hv2. destruct dir; only_callbacks_by Hb1 Hv1.
  - intros. apply base_unaffected_intro; [assumption|].
    apply gpt3_pretrain_tree.
  - clear E1 E2 Hb1 Hv1. destruct dir; only_callbacks_by Hb2 Hv2.
  - intros. apply base_unaffected_intro; [assumption|].
    apply nemotron_pretrain_tree.
Qed.

(** ** The guarded assignments when the guard holds *)

Section assignment.

Implicit Types (s : store) (v x : value) (l : nat).

Lemma assoc_set_same k x (kv : list (string * value)) :
  assoc k (assoc_set k x kv) = Some x.
Proof.
  induction kv as [|[a y] kv IH]; simpl.
  - by rewrite String.eqb_refl.
  - destruct (String.eqb k a) eqn:E; simpl; [by rewrite String.eqb_refl|].
    by rewrite E.
Qed.

Lemma assoc_set_other k k' x (kv : list (string * value)) :
  k' <> k -> assoc k' (assoc_set k x kv) = assoc k' kv.
Proof.
  intros Hne. apply String.eqb_neq in Hne.
  induction kv as [|[a y] kv IH]; simpl.
  - by rewrite Hne.
  - destruct (String.eqb k a) eqn:E; simpl.
    + apply String.eqb_eq in E as <-. by rewrite Hne.
    + by rewrite IH.
Qed.

(** After [obj.name = x] on an instance, [obj.name] reads [x] ... *)
Lemma attr_assigned s l c fields name x :
  s !! l = Some (OInstance c fields) ->
  attr (<[l := OInstance c (assoc_set name x fields)]> s) (VRef l) name = OK x.
Proof.
  intros Hl. unfold attr.
  rewrite list_lookup_insert_eq by (by eapply lookup_lt_Some).
  by rewrite assoc_set_same.
Qed.

(** ... and every other attribute of every object reads as before. *)
Lemma attr_not_assigned s l c fields name x v name' :
  s !! l = Some (OInstance c fields) -> name' <> name ->
  attr (<[l := OInstance c (assoc_set name x fields)]> s) v name'
  = attr s v name'.
Proof.
  intros Hl Hne. destruct v as [| | | | | |l0]; try done. unfold attr.
  destruct (decide (l0 = l)) as [->|Hl0].
  - rewrite list_lookup_insert_eq by (by eapply lookup_lt_Some).
    by rewrite Hl, assoc_set_other.
  - by rewrite list_lookup_insert_ne.
Qed.

Lemma path_not_assigned s l c fields name x v names :
  s !! l = Some (OInstance c fields) -> Forall (fun n => n <> name) names ->
  path (<[l := OInstance c (assoc_set name x fields)]> s) v names
  = path s v names.
Proof.
  intros Hl H. revert v. induction H as [|n names Hn _ IH]; intros v; [done|].
  simpl. rewrite (attr_not_assigned _ _ _ _ _ _ _ _ Hl Hn).
  destruct (attr s v n); [apply IH|done].
Qed.

Lemma path_app s v names names' :
  path s v (names ++ names')
  = match path s v names with
    | OK x => path s x names'
    | Raise e => Raise e
    end.
Proof.
  revert v. induction names as [|n names IH]; intros v; simpl; [done|].
  destruct (attr s v n); [apply IH|done].
Qed.

End assignment.

(** X1: When [recipe.trainer.strategy.ddp] is an instance of
    [DistributedDataParallelConfig], the statement of lines 215-216 raises
    nothing and assigns [False] to [grad_reduce_in_fp32] of that very
    object: afterwards the flag reads [False] through the recipe, the store
    has the same size, every other object is as it was, and every other
    attribute of every object reads as before. *)
Theorem override_ddp_fires_on_instance (s : store) recipe l fields :
  path s recipe ["trainer"; "strategy"; "ddp"] = OK (VRef l) ->
  s !! l = Some (OInstance "DistributedDataParallelConfig" fields) ->
  exists s',
    nemotron4_22b.override_ddp recipe s = OK (tt, s') /\
    path s' recipe ddp_flag = OK (VBool false) /\
    length s' = length s /\
    (forall l', l' <> l -> s' !! l' = s !! l') /\
    (forall v name, name <> "grad_reduce_in_fp32" ->
                    attr s' v name = attr s v name).
Proof.
  intros Hp Hl. pose proof Hp as Hp'.
  apply path3 in Hp' as (t & st & Ht & Hst & Hd).
  eexists. split; [|split; [|split; [|split]]].
  - unfold nemotron4_22b.override_ddp, bind, getattr, isinstance, class_of,
      setattr.
    repeat (first [rewrite Ht|rewrite Hst|rewrite Hd|rewrite Hl]; simpl).
    reflexivity.
  - change ddp_flag
      with (["trainer"; "strategy"; "ddp"] ++ ["grad_reduce_in_fp32"]).
    rewrite path_app, (path_not_assigned s l _ fields) by (repeat constructor; done).
    rewrite Hp. cbn [path]. by rewrite attr_assigned.
  - apply length_insert.
  - intros l' Hne. by rewrite list_lookup_insert_ne.
  - intros v name Hne. by apply attr_not_assigned.
Qed.

(** A store where [ddp] is an instance with two fields. *)
Lemma override_ddp_fires_on_instance_witness :
  let s := [OInstance "DistributedDataParallelConfig"
              [("grad_reduce_in_fp32", VBool true);
               ("overlap_grad_reduce", VBool true)];
            OBuildable KConfig (VName "nl.MegatronStrategy") [("ddp", VRef 0)];
            OBuildable KConfig (VName "nl.Trainer") [("strategy", VRef 1)];
            OBuildable KPartial (VName "pretrain") [("trainer", VRef 2)]] in
  exists s',
    nemotron4_22b.override_ddp (VRef 3) s = OK (tt, s') /\
    path s' (VRef 3) ddp_flag = OK (VBool false) /\
    length s' = length s /\
    (forall l', l' <> 0 -> s' !! l' = s !! l') /\
    (forall v name, name <> "grad_reduce_in_fp32" ->
                    attr s' v name = attr s v name).
Proof.
  intros s.
  apply (override_ddp_fires_on_instance s (VRef 3) 0
           [("grad_reduce_in_fp32", VBool true);
            ("overlap_grad_reduce", VBool true)]); reflexivity.
Defined.

(** X2: When [recipe.trainer.plugins] is an instance of
    [MegatronMixedPrecision], the statement of lines 213-214 raises nothing
    and assigns [False] to [grad_reduce_in_fp32] of that very object, with
    nothing else changed. *)
Theorem override_plugins_fires_on_instance (s : store) recipe l fields :
  path s recipe ["trainer"; "plugins"] = OK (VRef l) ->
  s !! l = Some (OInstance "MegatronMixedPrecision" fields) ->
  exists s',
    nemotron4_22b.override_plugins recipe s = OK (tt, s') /\
    path s' recipe plugins_flag = OK (VBool false) /\
    length s' = length s /\
    (forall l', l' <> l -> s' !! l' = s !! l') /\
    (forall v name, name <> "grad_reduce_in_fp32" ->
                    attr s' v name = attr s v name).
Proof.
  intros Hp Hl. pose proof Hp as Hp'. apply path2 in Hp' as (t & Ht & Hd).
  eexists. split; [|split; [|split; [|split]]].
  - unfold nemotron4_22b.override_plugins, bind, getattr, isinstance, class_of,
      setattr.
    repeat (first [rewrite Ht|rewrite Hd|rewrite Hl]; simpl).
    reflexivity.
  - change plugins_flag with (["trainer"; "plugins"] ++ ["grad_reduce_in_fp32"]).
    rewrite path_app, (path_not_assigned s l _ fields) by (repeat constructor; done).
    rewrite Hp. cbn [path]. by rewrite attr_assigned.
  - apply length_insert.
  - intros l' Hne. by rewrite list_lookup_insert_ne.
  - intros v name Hne. by apply attr_not_assigned.
Qed.

(** A store where the precision plugin is an instance. *)
Lemma override_plugins_fires_on_instance_witness :
  let s := [OInstance "MegatronMixedPrecision"
              [("precision", VStr "bf16-mixed");
               ("grad_reduce_in_fp32", VBool true)];
            OBuildable KConfig (VName "nl.Trainer") [("plugins", VRef 0)];
            OBuildable KPartial (VName "pretrain") [("trainer", VRef 1)]] in
  exists s',
    nemotron4_22b.override_plugins (VRef 2) s = OK (tt, s') /\
    path s' (VRef 2) plugins_flag = OK (VBool false) /\
    length s' = length s /\
    (forall l', l' <> 0 -> s' !! l' = s !! l') /\
    (forall v name, name <> "grad_reduce_in_fp32" ->
                    attr s' v name = attr s v name).
Proof.
  intros s.
  apply (override_plugins_fires_on_instance s (VRef 2) 0
           [("precision", VStr "bf16-mixed");
            ("grad_reduce_in_fp32", VBool true)]); reflexivity.
Defined.

(** ** The append of the overlap callback, on any recipe *)

Section append.

Implicit Types (s : store) (v x : value) (l : nat).

(** Appending to the list at [l] and allocating behind the store leave
    every attribute that could be read readable, with the same value. *)
Lemma attr_after_append s l items items' o v name x :
  s !! l = Some (OList items) -> attr s v name = OK x ->
  attr (<[l := OList items']> (s ++ [o])) v name = OK x.
Proof.
  intros Hl. destruct v as [| | | | | |l0]; try done. unfold attr.
  destruct (s !! l0) as [o0|] eqn:E0; [|done].
  destruct (decide (l0 = l)) as [->|Hne].
  - rewrite Hl in E0. by injection E0 as <-.
  - by rewrite list_lookup_insert_ne, (lookup_app_l_Some _ _ _ _ E0).
Qed.

Lemma path_after_append s l items items' o v names x :
  s !! l = Some (OList items) -> path s v names = OK x ->
  path (<[l := OList items']> (s ++ [o])) v names = OK x.
Proof.
  intros Hl. revert v. induction names as [|n names IH]; intros v; [done|].
  simpl. destruct (attr s v n) as [y|] eqn:E; [|done].
  rewrite (attr_after_append _ _ _ _ _ _ _ _ Hl E). apply IH.
Qed.

End append.

(** X3: The statement of lines 218-225, on any recipe whose
    [trainer.callbacks] is a list, the empty list included: it raises
    nothing, allocates exactly one object, the overlap callback, and puts a
    reference to it at the end of that very list; the entries that were
    there stay in place and every other object of the store is as it
    was. *)
Theorem append_overlap_on_any_list (s : store) recipe l items :
  path s recipe callbacks_path = OK (VRef l) ->
  s !! l = Some (OList items) ->
  exists s',
    nemotron4_22b.append_overlap recipe s = OK (tt, s') /\
    list_items s' (path s' recipe callbacks_path)
      = Some (items ++ [VRef (length s)]) /\
    s' !! length s = Some nemotron_overlap_obj /\
    length s' = S (length s) /\
    (forall l', l' <> l -> l' < length s -> s' !! l' = s !! l').
Proof.
  intros Hp Hl. pose proof Hp as Hp'. apply path2 in Hp' as (t & Ht & Hc).
  assert (Hlt : l < length s) by (by eapply lookup_lt_Some).
  exists (<[l := OList (items ++ [VRef (length s)])]>
            (s ++ [nemotron_overlap_obj])).
  split; [|split; [|split; [|split]]].
  - unfold nemotron4_22b.append_overlap, bind, getattr, run_Config.
    rewrite Ht, Hc, alloc_returns. unfold list_append.
    by rewrite (lookup_app_l_Some _ _ _ _ Hl).
  - rewrite (path_after_append _ _ _ _ _ _ _ _ Hl Hp). unfold list_items.
    rewrite list_lookup_insert_eq; [done|]. rewrite length_app. lia.
  - rewrite list_lookup_insert_ne by lia.
    by rewrite (list_lookup_middle s [] _ (length s) eq_refl).
  - rewrite length_insert, length_app. simpl. lia.
  - intros l' Hne Hl'. rewrite list_lookup_insert_ne by done.
    by rewrite lookup_app_l.
Qed.

(** A recipe whose trainer has an empty callback list. *)
Lemma append_overlap_on_any_list_witness :
  let s := [OList [];
            OBuildable KConfig (VName "nl.Trainer") [("callbacks", VRef 0)];
            OBuildable KPartial (VName "pretrain") [("trainer", VRef 1)]] in
  exists s',
    nemotron4_22b.append_overlap (VRef 2) s = OK (tt, s') /\
    list_items s' (path s' (VRef 2) callbacks_path) = Some ([] ++ [VRef 3]) /\
    s' !! 3 = Some nemotron_overlap_obj /\
    length s' = 4 /\
    (forall l', l' <> 0 -> l' < 3 -> s' !! l' = s !! l').
Proof.
  intros s.
  apply (append_overlap_on_any_list s (VRef 2) 0 []); reflexivity.
Defined.

(** ** The callback list of [trainer] is the caller's list *)

(** X4: [trainer] of gpt3_175b keeps the list passed as [callbacks], not a
    copy: build two trainers from the same list, append [x] to the list
    read back from the first, and the second trainer's [callbacks] shows
    [x] as well, whatever the other arguments of the two calls. *)
Theorem gpt3_trainer_callbacks_aliased
    tp pp ppt vpp cp sp nn ng ms tp' pp' ppt' vpp' cp' sp' nn' ng' ms'
    (s : store) l items x :
  s !! l = Some (OList items) ->
  exists t1 s1 t2 s2 s3,
    gpt3_175b.trainer tp pp ppt vpp cp sp nn ng ms (VRef l) s = OK (t1, s1) /\
    gpt3_175b.trainer tp' pp' ppt' vpp' cp' sp' nn' ng' ms' (VRef l) s1
      = OK (t2, s2) /\
    path s2 t1 ["callbacks"] = OK (VRef l) /\
    path s2 t2 ["callbacks"] = OK (VRef l) /\
    (cbs <- getattr t1 "callbacks" ;; list_append cbs x) s2 = OK (tt, s3) /\
    list_items s3 (path s3 t1 ["callbacks"]) = Some (items ++ [x]) /\
    list_items s3 (path s3 t2 ["callbacks"]) = Some (items ++ [x]).
Proof.
  intros Hl.
  assert (Hlt : l < length s) by (by eapply lookup_lt_Some).
  autounfold with recipes. unfold bind. rewrite !alloc_returns.
  eexists _, _, _, _, _.
  split; [reflexivity|]. rewrite !alloc_returns.
  split; [reflexivity|].
  rewrite !length_app. simpl length. rewrite <- !app_assoc. simpl app.
  replace (length s + 1 + 1 + 1 + 1 + 1 + 1 + 1) with (length s + 7) by lia.
  replace (length s + 1 + 1 + 1) with (length s + 3) by lia.
  split; [unfold path, attr; rewrite lookup_on_top; reflexivity|].
  split; [unfold path, attr; rewrite lookup_on_top; reflexivity|].
  split.
  { unfold getattr, attr, list_append. rewrite lookup_on_top. simpl.
    rewrite (lookup_app_l_Some _ _ _ _ Hl). reflexivity. }
  split; unfold list_items, path, attr;
    rewrite list_lookup_insert_ne by lia; rewrite lookup_on_top; simpl;
    (rewrite list_lookup_insert_eq; [done|]); rewrite length_app; lia.
Qed.

(** The caller's list is empty and the two calls use different degrees. *)
Lemma gpt3_trainer_callbacks_aliased_witness :
  exists t1 s1 t2 s2 s3,
    gpt3_175b.trainer 4 8 None None 1 true 64 8 100 (VRef 0) [OList []]
      = OK (t1, s1) /\
    gpt3_175b.trainer 2 2 None None 1 false 1 8 5 (VRef 0) s1 = OK (t2, s2) /\
    path s2 t1 ["callbacks"] = OK (VRef 0) /\
    path s2 t2 ["callbacks"] = OK (VRef 0) /\
    (cbs <- getattr t1 "callbacks" ;; list_append cbs (VInt 7)) s2
      = OK (tt, s3) /\
    list_items s3 (path s3 t1 ["callbacks"]) = Some ([] ++ [VInt 7]) /\
    list_items s3 (path s3 t2 ["callbacks"]) = Some ([] ++ [VInt 7]).
Proof.
  apply (gpt3_trainer_callbacks_aliased 4 8 None None 1 true 64 8 100
           2 2 None None 1 false 1 8 5 [OList []] 0 [] (VInt 7)).
  reflexivity.
Defined.

(** ** The performance variants work in place *)

(** X5: Called in the same store, a performance variant returns the very node
    the base recipe returns, and its final store is the final store of the
    base recipe with one list, the trainer's callback list, extended in
    place by one reference, and one object, the overlap callback, added
    behind: nothing is copied and no other object is written. *)
Theorem performance_variants_update_in_place dir name nn ng fn (s : store) :
  (exists r sb sv l items,
     gpt3_175b.pretrain_recipe dir name nn ng fn s = OK (r, sb) /\
     gpt3_175b.pretrain_recipe_performance dir name nn ng fn s = OK (r, sv) /\
     path sb r callbacks_path = OK (VRef l) /\
     sb !! l = Some (OList items) /\
     sv = <[l := OList (items ++ [VRef (length sb)])]> sb ++ [gpt3_overlap_obj]) /\
  (exists r sb sv l items,
     nemotron4_22b.pretrain_recipe
       (nemotron4_22b.base_args dir name nn ng fn) s = OK (r, sb) /\
     nemotron4_22b.pretrain_recipe_performance dir name nn ng fn s
       = OK (r, sv) /\
     path sb r callbacks_path = OK (VRef l) /\
     sb !! l = Some (OList items) /\
     sv = <[l := OList (items ++ [VRef (length sb)])]> sb
          ++ [nemotron_overlap_obj]).
Proof.
  split.
  - eexists _, _, _, (length s + 3), [VRef (length s + 2)].
    split; [run_with (gpt3_pretrain_relocatable dir name nn ng fn)|].
    split; [run_with (gpt3_performance_relocatable dir name nn ng fn)|].
    split; [unfold callbacks_path; rewrite path_on_top_ref; reflexivity|].
    split; [rewrite lookup_on_top_fmap; reflexivity|].
    rewrite length_app, length_fmap, insert_app_r, <- app_assoc.
    f_equal.
  - eexists _, _, _, (length s + 3), [VRef (length s + 2)].
    split; [run_with (nemotron_pretrain_relocatable
                        (nemotron4_22b.base_args dir name nn ng fn))|].
    split; [run_with (nemotron_performance_relocatable dir name nn ng fn)|].
    split; [unfold callbacks_path; rewrite path_on_top_ref; reflexivity|].
    split; [rewrite lookup_on_top_fmap; reflexivity|].
    rewrite length_app, length_fmap, insert_app_r, <- app_assoc.
    f_equal.
Qed.

(** ** Where [gradient_clip_val] goes *)


(** ** The shape of what the builders return *)

Lemma relocatable_builds_tree m l0 (seg : store) :
  relocatable m -> m [] = OK (VRef l0, seg) ->
  l0 < length seg -> closed_seg seg = true -> tree_shaped l0 seg = true ->
  builds_tree m.
Proof.
  intros Hr Hrun Hl Hc Ht. exists l0, seg. repeat split; try done.
  intros s. apply (relocatable_run m l0 seg Hr Hrun s).
Qed.

Ltac builds_tree_by H :=
  eapply relocatable_builds_tree;
  [ exact H | vm_compute; reflexivity | cbn; lia
  | vm_compute; reflexivity | vm_compute; reflexivity ].

Lemma nemotron_pretrain_builds_tree a :
  builds_tree (nemotron4_22b.pretrain_recipe a).
Proof.
  pose proof (nemotron_pretrain_relocatable a) as H. revert H.
  destruct a as [dir name tp pp ppt vpp cp sp nn ng ms prec agb gcv ltb lvb
                   lens vci gbs mbs sl ws cs minlr maxlr fn].
  intros H.
  destruct (String.eqb prec "16-mixed") eqn:E1;
    [|destruct (String.eqb prec "bf16-mixed") eqn:E2];
    destruct dir, ppt, vpp;
    (eapply relocatable_builds_tree;
     [ exact H
     | autounfold with recipes; cbn [nemotron4_22b.precision];
       rewrite ?E1, ?E2; vm_compute; reflexivity
     | cbn; lia | vm_compute; reflexivity | vm_compute; reflexivity ]).
Qed.

(** X7: Every recipe builder returns a tree of its own objects: in every store
    and for every argument tuple, the objects the call allocates hold
    references to each other only, none holds the returned node, and each
    of the others is held by exactly one field or list entry.  No node is
    shared between two branches of a recipe, so an assignment through one
    branch cannot show in another.  This holds for [model],
    [pretrain_recipe] and [pretrain_recipe_performance] of both files and
    for [trainer] of gpt3_175b called with [callbacks=None]. *)
Theorem builders_return_trees :
  builds_tree gpt3_175b.model /\
  (forall tp pp ppt vpp cp sp nn ng ms,
     builds_tree (gpt3_175b.trainer tp pp ppt vpp cp sp nn ng ms VNone)) /\
  (forall dir name nn ng fn,
     builds_tree (gpt3_175b.pretrain_recipe dir name nn ng fn)) /\
  (forall dir name nn ng fn,
     builds_tree (gpt3_175b.pretrain_recipe_performance dir name nn ng fn)) /\
  builds_tree nemotron4_22b.model /\
  (forall a, builds_tree (nemotron4_22b.pretrain_recipe a)) /\
  (forall dir name nn ng fn,
     builds_tree (nemotron4_22b.pretrain_recipe_performance dir name nn ng fn)).
Proof.
  split; [builds_tree_by gpt3_model_relocatable|].
  split.
  { intros.
    pose proof (gpt3_trainer_relocatable tp pp ppt vpp cp sp nn ng ms) as H.
    destruct ppt, vpp; builds_tree_by H. }
  split.
  { intros. pose proof (gpt3_pretrain_relocatable dir name nn ng fn) as H.
    destruct dir; builds_tree_by H. }
  split.
  { intros. pose proof (gpt3_performance_relocatable dir name nn ng fn) as H.
    destruct dir; builds_tree_by H. }
  split; [builds_tree_by nemotron_model_relocatable|].
  split; [intros; apply nemotron_pretrain_builds_tree|].
  intros. pose proof (nemotron_performance_relocatable dir name nn ng fn) as H.
  destruct dir; builds_tree_by H.
Qed.

(** ** The cluster size in gpt3_175b *)

(** X8: [pretrain_recipe] of gpt3_175b passes [num_nodes] and
    [num_gpus_per_node] to [trainer], which stores them in the trainer node
    ([num_nodes], [devices]) and nowhere else.  Called in the same store,
    two calls that differ in the cluster size alone return the same node
    and build the same objects except for the trainer node: the strategy
    with its parallelism degrees, the model, the data module and the other
    branches do not depend on the cluster size. *)
Theorem gpt3_cluster_size_only_in_trainer dir name fn nn ng nn' ng' (s : store) :
  exists r s1 s2 l o,
    gpt3_175b.pretrain_recipe dir name nn ng fn s = OK (r, s1) /\
    gpt3_175b.pretrain_recipe dir name nn' ng' fn s = OK (r, s2) /\
    path s1 r ["trainer"] = OK (VRef l) /\
    path s2 r ["trainer"; "num_nodes"] = OK (VInt nn') /\
    path s2 r ["trainer"; "devices"] = OK (VInt ng') /\
    s2 = <[l := o]> s1.
Proof.
  eexists _, _, _, (length s + 7), _.
  split; [run_with (gpt3_pretrain_relocatable dir name nn ng fn)|].
  split; [run_with (gpt3_pretrain_relocatable dir name nn' ng' fn)|].
  split; [rewrite path_on_top_ref; reflexivity|].
  split; [rewrite path_on_top_ref; reflexivity|].
  split; [rewrite path_on_top_ref; reflexivity|].
  rewrite insert_app_r. f_equal.
Qed.
